(** * Verification of the TWAP and grid strategies of binance_bot

    Shallow embedding of [src/advanced/twap.py] and [src/advanced/grid.py]
    (with the parts of [market_orders.py], [limit_orders.py] and
    [binance_client.py] they call), followed by the properties of the
    execution scheduler and order lifecycle stated in the specification.

    Python [float] is IEEE binary64 and is modelled by Rocq's primitive
    floats, Python [int] by [Z], [dict]s keyed by strings by [gmap string],
    and the bodies of the methods by a state-and-exception monad whose state
    survives a raised exception, as the attributes of [self] do. *)

From Stdlib Require Import ZArith Lia Floats Ascii String.
From stdpp Require Import base option list gmap strings pretty.

Local Open Scope Z_scope.

(** ** Python exceptions and the state-and-exception monad *)

Inductive py_exception : Type :=
  | ZeroDivisionError
  | OverflowError (msg : string)
  | ValueError (msg : string)
  | NameError (name : string)
  | KeyError (key : string).

(** [str(e)] *)
Definition exn_str (e : py_exception) : string :=
  match e with
  | ZeroDivisionError => "float division by zero"
  | OverflowError msg => msg
  | ValueError msg => msg
  | NameError n => "name '" +:+ n +:+ "' is not defined"
  | KeyError k => "'" +:+ k +:+ "'"
  end.

(** A method body: it reads and writes the state [W] and either returns a
    value or raises.  What was written before the raise stays written. *)
Definition py (W A : Type) : Type := W -> (py_exception + A) * W.

Definition py_ret {W A} (a : A) : py W A := fun w => (inr a, w).

Definition py_bind {W A B} (c : py W A) (k : A -> py W B) : py W B :=
  fun w => match c w with
           | (inr a, w') => k a w'
           | (inl e, w') => (inl e, w')
           end.

Definition raise {W A} (e : py_exception) : py W A := fun w => (inl e, w).

Definition get_state {W} : py W W := fun w => (inr w, w).

Definition modify {W} (f : W -> W) : py W unit := fun w => (inr tt, f w).

(** [try: c  except Exception as e: h e] *)
Definition try_except {W A} (c : py W A) (h : py_exception -> py W A) : py W A :=
  fun w => match c w with
           | (inr a, w') => (inr a, w')
           | (inl e, w') => h e w'
           end.

#[global] Instance py_mret {W} : MRet (py W) := fun A => @py_ret W A.
#[global] Instance py_mbind {W} : MBind (py W) := fun A B k c => @py_bind W A B c k.

(** [for x in xs: body x] *)
Fixpoint for_each {W A} (xs : list A) (body : A -> py W unit) : py W unit :=
  match xs with
  | [] => py_ret tt
  | x :: rest => py_bind (body x) (fun _ => for_each rest body)
  end.

(** [range(n)]: empty when [n <= 0]. *)
Definition py_range (n : Z) : list Z := Z.of_nat <$> seq 0 (Z.to_nat n).

(** A name used in a module resolves only if the module binds it. *)
Definition lookup_global {W} (globals : list string) (name : string) : py W unit :=
  if bool_decide (name ∈ globals) then py_ret tt else raise (NameError name).

(** ** Floats *)

(** [float(n)] for an [int]: the nearest binary64 value. *)
Definition float_of_Z (z : Z) : float :=
  SF2Prim (binary_normalize prec emax z 0 false).

(** [x / n] and [x * n] with [x] a float and [n] an int: the int is converted
    first ([OverflowError] when it has no finite float), and a zero divisor
    raises. *)
Definition int_as_float {W} (n : Z) : py W float :=
  let f := float_of_Z n in
  if is_infinity f then raise (OverflowError "int too large to convert to float")
  else py_ret f.

Definition truediv_int {W} (x : float) (n : Z) : py W float :=
  py_bind (int_as_float n) (fun d =>
    if PrimFloat.eqb d 0 then raise ZeroDivisionError else py_ret (x / d)%float).


Definition mul_int {W} (x : float) (n : Z) : py W float :=
  py_bind (int_as_float n) (fun d => py_ret (x * d)%float).

(** The quotient [n / d] for [d > 0], ties to the even neighbour. *)
Definition round_half_even (n d : Z) : Z :=
  let q := n / d in
  let r := n mod d in
  if 2 * r <? d then q
  else if d <? 2 * r then q + 1
  else if Z.even q then q else q + 1.

(** The exact value of a finite float times [scale], rounded to an integer. *)
Definition float_scaled_to_Z (scale : Z) (x : float) : option Z :=
  match Prim2SF x with
  | S754_zero _ => Some 0
  | S754_finite s m e =>
      let n := (if s then Z.neg m else Z.pos m) * scale in
      Some (if 0 <=? e then n * 2 ^ e else round_half_even n (2 ^ (- e)))
  | S754_infinity _ => None
  | S754_nan => None
  end.

(** The built-in [round(x, ndigits)] on a float: the exact value is rounded
    to [ndigits] decimals, ties to even, and the decimal is read back as a
    float. *)
Definition py_round (x : float) (ndigits : Z) : float :=
  match float_scaled_to_Z (10 ^ ndigits) x with
  | Some k => (float_of_Z k / float_of_Z (10 ^ ndigits))%float
  | None => x
  end.

Definition two52 : float := 4503599627370496%float.

(** [np.rint]: the nearest integer, ties to even. *)
Definition np_rint (x : float) : float :=
  if PrimFloat.ltb (abs x) two52 then
    if PrimFloat.ltb x 0 then (- ((- x + two52) - two52))%float
    else ((x + two52) - two52)%float
  else x.

(** [round(p, 2)] on a [np.float64]: numpy scales, rounds to an integer and
    scales back. *)
Definition np_round2 (p : float) : float := (np_rint (p * 100) / 100)%float.

(** [time.sleep(x)] converts the seconds to a signed 64-bit count of
    nanoseconds and then refuses a negative length; [None] when it sleeps. *)
Definition sleep_error (x : float) : option py_exception :=
  if is_nan x then Some (ValueError "Invalid value NaN (not a number)")
  else if PrimFloat.ltb (x * 1000000000) (- 0x1p+63)
          || PrimFloat.ltb 0x1p+63 (x * 1000000000)
  then Some (OverflowError "timestamp too large to convert to C _PyTime_t")
  else if PrimFloat.ltb x 0 then Some (ValueError "sleep length must be non-negative")
  else None.

(** ** Dates and times

    A [datetime] is the number of microseconds since 0001-01-01 00:00:00;
    [datetime.max] is the last microsecond of year 9999. *)

Definition us_per_second : Z := 1000000.
Definition us_per_day : Z := 86400 * us_per_second.
Definition datetime_end : Z := 3652059 * us_per_day.
Definition timedelta_max_days : Z := 999999999.

(** [timedelta(seconds=x)]: microseconds, rounded half to even. *)
Definition timedelta_seconds {W} (x : float) : py W Z :=
  match float_scaled_to_Z us_per_second x with
  | Some us =>
      if (Z.abs (us / us_per_day) <=? timedelta_max_days)
      then py_ret us
      else raise (OverflowError ("days=" +:+ pretty (us / us_per_day)
                                 +:+ "; must have magnitude <= 999999999"))
  | None =>
      if is_nan x then raise (ValueError "cannot convert float NaN to integer")
      else raise (OverflowError "cannot convert float infinity to integer")
  end.

(** [dt + td] *)
Definition datetime_add {W} (dt td : Z) : py W Z :=
  let r := dt + td in
  if (0 <=? r) && (r <? datetime_end) then py_ret r
  else raise (OverflowError "date value out of range").

(** [now + timedelta(seconds=i * interval_seconds)] *)
Definition time_after {W} (now : Z) (interval_seconds : float) (i : Z) : py W Z :=
  py_bind (mul_int interval_seconds i) (fun offset =>
  py_bind (timedelta_seconds offset) (fun td =>
  datetime_add now td)).

(** [dt.strftime("%Y-%m-%d %H:%M:%S")]: the text names a whole second, and
    is kept as that second (counted from 0001-01-01 00:00:00). *)
Definition strftime_seconds (dt : Z) : Z := dt / us_per_second.

(** Seconds between 0001-01-01 and the Unix epoch. *)
Definition unix_epoch_seconds : Z := 719162 * 86400.

(** ** The exchange gateway

    [BinanceFuturesClient.new_order] posts the parameters and returns the
    decoded answer; a transport error is caught there and returned as
    [{'error': ...}]. *)

Inductive venue_side := BUY | SELL.

#[global] Instance venue_side_eq_dec : EqDecision venue_side.
Proof. solve_decision. Defined.

Record order_params := OrderParams {
  op_symbol : string;
  op_side : string;
  op_type : string;
  op_quantity : float;
  op_price : option float;
  op_time_in_force : option string
}.

Inductive venue_response :=
  | Acked (orderId : Z)          (* a body with an 'orderId' *)
  | Rejected (msg : string)      (* a body with 'code' and 'msg' *)
  | TransportError (err : string). (* {'error': str(e)} *)

(** What the process sees of the outside: the readings of the wall clock, in
    order, and the answer of the venue to the [n]-th order it is sent. *)
Record environment := Environment {
  clock : nat -> Z;
  venue : nat -> order_params -> venue_response
}.

(** [s.upper()] on the ASCII letters. *)
Definition ascii_upper (c : ascii) : ascii :=
  let n := nat_of_ascii c in
  if (97 <=? n)%nat && (n <=? 122)%nat then ascii_of_nat (n - 32) else c.

Fixpoint str_upper (s : string) : string :=
  match s with
  | EmptyString => EmptyString
  | String c rest => String (ascii_upper c) (str_upper rest)
  end.

(** ** [src/advanced/twap.py] *)

Module TWAP.

(** The names the module binds: its imports and its class. *)
Definition module_globals : list string :=
  ["time"; "threading"; "datetime"; "timedelta"; "Dict"; "List";
   "BinanceFuturesClient"; "TradingLogger"; "MarketOrder"; "TWAPStrategy"].

Inductive run_status := RUNNING | COMPLETED | CANCELLED | ERROR.

(** A value of [self.running_strategies]. *)
Record strategy := Strategy {
  symbol : string;
  side : string;
  total_quantity : float;
  chunks_completed : Z;
  start_time : Z;
  status : run_status;
  end_time : option Z;
  error : option string
}.

(** The arguments handed to the background thread. *)
Record worker_args := WorkerArgs {
  w_strategy_id : string;
  w_symbol : string;
  w_side : string;
  w_chunk_qty : float;
  w_chunks : Z;
  w_interval_seconds : float
}.

(** The strategy object and what it has done to the outside: [reads]
    counts the clock readings taken, [sent] lists the orders posted to the
    venue (oldest first), [threads] the background threads started. *)
Record state := State {
  reads : nat;
  sent : list order_params;
  running_strategies : gmap string strategy;
  threads : list worker_args;
  log : list string
}.

Definition initial : state := State 0 [] ∅ [] [].

(** An entry of [execution_plan]. *)
Record plan_entry := PlanEntry {
  chunk : Z;
  quantity : float;
  scheduled_time : Z;
  entry_status : string
}.

(** The dictionary [execute] returns. *)
Record started := StartedPlan {
  r_strategy_id : string;
  r_symbol : string;
  r_side : string;
  r_total_quantity : float;
  r_chunk_quantity : float;
  r_chunks : Z;
  r_interval_seconds : float;
  r_execution_plan : list plan_entry
}.

Inductive execute_result :=
  | STARTED (r : started)
  | ExecuteError (msg : string).   (* {'error': msg, 'status': 'ERROR'} *)

Definition set_status (st : run_status) (r : strategy) : strategy :=
  Strategy (symbol r) (side r) (total_quantity r) (chunks_completed r)
           (start_time r) st (end_time r) (error r).

Definition set_end_time (t : Z) (r : strategy) : strategy :=
  Strategy (symbol r) (side r) (total_quantity r) (chunks_completed r)
           (start_time r) (status r) (Some t) (error r).

Definition set_chunks_completed (n : Z) (r : strategy) : strategy :=
  Strategy (symbol r) (side r) (total_quantity r) n
           (start_time r) (status r) (end_time r) (error r).

Definition set_error (msg : string) (r : strategy) : strategy :=
  Strategy (symbol r) (side r) (total_quantity r) (chunks_completed r)
           (start_time r) (status r) (end_time r) (Some msg).

Definition with_strategies (f : gmap string strategy -> gmap string strategy)
    (s : state) : state :=
  State (reads s) (sent s) (f (running_strategies s)) (threads s) (log s).

Section Methods.
Context (E : environment).

(** [self.logger.log(event_type, ...)] *)
Definition logger_log (event_type : string) : py state unit :=
  modify (fun s => State (reads s) (sent s) (running_strategies s)
                         (threads s) (log s ++ [event_type])).

(** A reading of the wall clock. *)
Definition read_clock : py state Z :=
  fun s => (inr (clock E (reads s)),
            State (S (reads s)) (sent s) (running_strategies s)
                  (threads s) (log s)).

(** [datetime.now()] *)
Definition datetime_now : py state Z :=
  lookup_global module_globals "datetime" ;;
  read_clock.

(** [int(time.time())] *)
Definition time_time_int : py state Z :=
  lookup_global module_globals "time" ;;
  t ← read_clock ;
  mret (t / us_per_second - unix_epoch_seconds).

(** [time.sleep(x)] *)
Definition time_sleep (x : float) : py state unit :=
  lookup_global module_globals "time" ;;
  match sleep_error x with
  | Some e => raise e
  | None => mret tt
  end.

(** [threading.Thread(target=..., args=...)] with [daemon] set, started. *)
Definition thread_start (a : worker_args) : py state unit :=
  lookup_global module_globals "threading" ;;
  modify (fun s => State (reads s) (sent s) (running_strategies s)
                         (threads s ++ [a]) (log s)).

(** [BinanceFuturesClient.new_order]: never raises. *)
Definition new_order (p : order_params) : py state venue_response :=
  fun s => (inr (venue E (length (sent s)) p),
            State (reads s) (sent s ++ [p]) (running_strategies s)
                  (threads s) (log s)).

(** [MarketOrder.place_order(symbol, side, quantity)] *)
Definition market_place_order (sym sd : string) (qty : float)
    : py state venue_response :=
  logger_log "MARKET_ORDER" ;;
  response ← new_order (OrderParams (str_upper sym) (str_upper sd) "MARKET"
                                    (py_round qty 8) None None) ;
  match response with
  | Acked _ => logger_log "SUCCESS"
  | _ => logger_log "ERROR"
  end ;;
  mret response.

(** One turn of the loop of [execute] that fills [execution_plan]. *)
Definition plan_entry_at (chunk_qty interval_seconds : float) (i : Z)
    : py state plan_entry :=
  now ← datetime_now ;
  lookup_global module_globals "timedelta" ;;
  execution_time ← time_after now interval_seconds i ;
  mret (PlanEntry (i + 1) chunk_qty (strftime_seconds execution_time) "PENDING").

Fixpoint build_plan (chunk_qty interval_seconds : float) (idx : list Z)
    : py state (list plan_entry) :=
  match idx with
  | [] => mret []
  | i :: rest =>
      e ← plan_entry_at chunk_qty interval_seconds i ;
      es ← build_plan chunk_qty interval_seconds rest ;
      mret (e :: es)
  end.

(** [TWAPStrategy.execute] *)
Definition execute (sym sd : string) (total : float)
    (duration_hours : float) (chunks : Z) : py state execute_result :=
  try_except
    (chunk_qty ← truediv_int total chunks ;
     interval_seconds ← truediv_int (duration_hours * 3600)%float chunks ;
     logger_log "TWAP" ;;
     execution_plan ← build_plan chunk_qty interval_seconds (py_range chunks) ;
     t ← time_time_int ;
     let strategy_id := "twap_" +:+ sym +:+ "_" +:+ pretty t in
     thread_start (WorkerArgs strategy_id sym sd chunk_qty chunks interval_seconds) ;;
     started_at ← datetime_now ;
     modify (with_strategies
               (insert strategy_id
                  (Strategy sym sd total 0 started_at RUNNING None None))) ;;
     mret (STARTED (StartedPlan strategy_id sym sd total chunk_qty chunks
                                interval_seconds execution_plan)))
    (fun e =>
       let error_msg := "Error starting TWAP strategy: " +:+ exn_str e in
       logger_log "ERROR" ;;
       mret (ExecuteError error_msg)).

(** [if strategy_id in self.running_strategies:
       self.running_strategies[strategy_id][field] = value] *)
Definition update_strategy (strategy_id : string)
    (f : strategy -> strategy) : py state unit :=
  modify (with_strategies (alter f strategy_id)).

(** One turn of the loop of [_execute_twap_background].  The answer of
    [place_order] is only logged. *)
Definition worker_iteration (a : worker_args) (i : Z) : py state unit :=
  time_sleep (w_interval_seconds a) ;;
  logger_log "TWAP_EXEC" ;;
  market_place_order (w_symbol a) (w_side a) (w_chunk_qty a) ;;
  update_strategy (w_strategy_id a) (set_chunks_completed (i + 1)) ;;
  logger_log "TWAP_RESULT".

(** The statements after the loop: mark the strategy as completed. *)
Definition worker_finish (a : worker_args) : py state unit :=
  s ← get_state ;
  if bool_decide (is_Some (running_strategies s !! w_strategy_id a)) then
    update_strategy (w_strategy_id a) (set_status COMPLETED) ;;
    t ← datetime_now ;
    update_strategy (w_strategy_id a) (set_end_time t) ;;
    logger_log "TWAP"
  else mret tt.

(** The [except] clause of [_execute_twap_background]. *)
Definition worker_handler (a : worker_args) (e : py_exception)
    : py state unit :=
  logger_log "ERROR" ;;
  update_strategy (w_strategy_id a) (set_status ERROR) ;;
  update_strategy (w_strategy_id a) (set_error (exn_str e)).

(** [TWAPStrategy._execute_twap_background] *)
Definition execute_twap_background (a : worker_args) : py state unit :=
  try_except
    (for_each (py_range (w_chunks a)) (worker_iteration a) ;;
     worker_finish a)
    (worker_handler a).

(** [TWAPStrategy.get_strategy_status]: [None] stands for [{}]. *)
Definition get_strategy_status (strategy_id : string) (s : state)
    : option strategy :=
  running_strategies s !! strategy_id.

(** [TWAPStrategy.cancel_strategy] *)
Definition cancel_strategy (strategy_id : string) : py state bool :=
  try_except
    (s ← get_state ;
     if bool_decide (is_Some (running_strategies s !! strategy_id)) then
       modify (with_strategies (alter (set_status CANCELLED) strategy_id)) ;;
       t ← datetime_now ;
       modify (with_strategies (alter (set_end_time t) strategy_id)) ;;
       logger_log "TWAP" ;;
       mret true
     else mret false)
    (fun e => logger_log "ERROR" ;; mret false).

(** *** The background thread next to the caller's thread

    The thread gives way while it sleeps, so it is cut into its loop
    turns: [Looping i] is about to sleep before chunk [i], and after the
    last chunk one more step runs the statements after the loop. *)
Inductive worker_pc := Looping (i : nat) | Finished.

Definition worker_step (a : worker_args) (pc : worker_pc) (s : state)
    : worker_pc * state :=
  match pc with
  | Looping i =>
      if bool_decide (i < Z.to_nat (w_chunks a))%nat then
        match worker_iteration a (Z.of_nat i) s with
        | (inr _, s') => (Looping (S i), s')
        | (inl e, s') => (Finished, snd (worker_handler a e s'))
        end
      else
        match worker_finish a s with
        | (inr _, s') => (Finished, s')
        | (inl e, s') => (Finished, snd (worker_handler a e s'))
        end
  | Finished => (Finished, s)
  end.

(** What the two threads do, in the order it happens. *)
Inductive action :=
  | WorkerStep
  | Cancel (strategy_id : string).

Definition step (a : worker_args) (act : action) (sys : worker_pc * state)
    : worker_pc * state :=
  match act with
  | WorkerStep => worker_step a (fst sys) (snd sys)
  | Cancel strategy_id => (fst sys, snd (cancel_strategy strategy_id (snd sys)))
  end.

Definition run_schedule (a : worker_args) (acts : list action)
    (sys : worker_pc * state) : worker_pc * state :=
  foldl (fun sys act => step a act sys) sys acts.

End Methods.

#[global] Instance action_eq_dec : EqDecision action.
Proof. solve_decision. Defined.

#[global] Instance run_status_eq_dec : EqDecision run_status.
Proof. solve_decision. Defined.

(** The market order the background thread posts for each chunk. *)
Definition chunk_order (a : worker_args) : order_params :=
OrderParams (str_upper (w_symbol a)) (str_upper (w_side a)) "MARKET"
            (py_round (w_chunk_qty a) 8) None None.

(** The lengths [time.sleep] accepts. *)
Definition sleepable (x : float) : bool :=
match sleep_error x with
| None => true
| Some _ => false
end.

(** How many of the actions are steps of the background thread. *)
Definition worker_steps (acts : list action) : nat :=
length (filter (fun act => act = WorkerStep) acts).

(** The status entry of a run, as [get_strategy_status] shows it. *)
Definition status_of (strategy_id : string) (s : state) : option run_status :=
status <$> running_strategies s !! strategy_id.

Definition completed_of (strategy_id : string) (s : state) : option Z :=
chunks_completed <$> running_strategies s !! strategy_id.

(** The state after [k] more readings of the clock. *)
Definition advance_clock (k : nat) (s : state) : state :=
State (reads s + k) (sent s) (running_strategies s) (threads s) (log s).

(** The state after one more line in the log. *)
Definition logged (event_type : string) (s : state) : state :=
State (reads s) (sent s) (running_strategies s) (threads s) (log s ++ [event_type]).

End TWAP.

(** [s.lower()] on the ASCII letters. *)
Definition ascii_lower (c : ascii) : ascii :=
  let n := nat_of_ascii c in
  if (65 <=? n)%nat && (n <=? 90)%nat then ascii_of_nat (n + 32) else c.

Fixpoint str_lower (s : string) : string :=
  match s with
  | EmptyString => EmptyString
  | String c rest => String (ascii_lower c) (str_lower rest)
  end.

(** ** numpy

    [np.log10] and [np.power(10.0, .)] have no counterpart among the
    primitive float operations and are taken as they come. *)
Record numpy_math := NumpyMath {
  np_log10 : float -> float;
  np_power10 : float -> float
}.

(** [np.linspace(start, stop, num)] on float scalars. *)
Definition np_linspace {W} (start stop : float) (num : Z) : py W (list float) :=
  if num <? 0 then
    raise (ValueError ("Number of samples, " +:+ pretty num
                       +:+ ", must be non-negative."))
  else
    let div := num - 1 in
    let delta := (stop - start)%float in
    let y := float_of_Z <$> py_range num in
    let y :=
      if 0 <? div then
        let step := (delta / float_of_Z div)%float in
        if PrimFloat.eqb step 0
        then (fun v => (v / float_of_Z div * delta)%float) <$> y
        else (fun v => (v * step)%float) <$> y
      else (fun v => (v * delta)%float) <$> y in
    let y := (fun v => (v + start)%float) <$> y in
    mret (if 1 <? num then <[Z.to_nat (num - 1) := stop]> y else y).

(** [np.sign] *)
Definition np_sign (x : float) : float :=
  if PrimFloat.ltb x 0 then (-1)%float
  else if PrimFloat.ltb 0 x then 1%float
  else x.

(** [np.geomspace(start, stop, num)] on float scalars: a [linspace] of the
    logarithms, raised back, with the end points put in place. *)
Definition np_geomspace {W} (M : numpy_math) (start stop : float) (num : Z)
    : py W (list float) :=
  if PrimFloat.eqb start 0 || PrimFloat.eqb stop 0 then
    raise (ValueError "Geometric sequence cannot include zero")
  else
    let out_sign := np_sign start in
    let start' := (start / out_sign)%float in
    let stop' := (stop / out_sign)%float in
    y ← np_linspace (np_log10 M start') (np_log10 M stop') num ;
    let result := np_power10 M <$> y in
    let result := if 0 <? num then <[0%nat := start']> result else result in
    let result := if 1 <? num then <[Z.to_nat (num - 1) := stop']> result
                  else result in
    mret ((fun v => (v * out_sign)%float) <$> result).

(** ** [src/advanced/grid.py] *)

Module Grid.

(** The names the module binds: [numpy as np], the typing names, the
    client, the logger, [LimitOrder], and its class. *)
Definition module_globals : list string :=
  ["np"; "Dict"; "List"; "BinanceFuturesClient"; "TradingLogger";
   "LimitOrder"; "GridStrategy"].

Inductive level_status := PENDING | PLACED | FAILED | ERROR | OPEN | FILLED.

Inductive grid_status := SETUP | ACTIVE | CLOSED.

Definition side_str (s : venue_side) : string :=
  match s with BUY => "BUY" | SELL => "SELL" end.

(** An entry of [grid_levels]; the keys ['order_id'] and ['error'] are
    absent until they are assigned. *)
Record level := Level {
  level_no : Z;
  price : float;
  side : venue_side;
  order_type : string;
  quantity : float;
  status : level_status;
  order_id : option Z;
  error : option string
}.

(** A value of [self.active_grids]. *)
Record grid := GridRec {
  symbol : string;
  lower_price : float;
  upper_price : float;
  grid_lines : Z;
  order_qty : float;
  grid_type : string;
  levels : list level;
  grid_state : grid_status;
  orders_placed : Z;
  orders_filled : Z
}.

(** The strategy object and what it has done to the outside: [sent] lists
    the orders posted to the venue, [cancels] the order ids it asked the
    venue to cancel, [threads] the grid ids of the threads started. *)
Record state := State {
  reads : nat;
  sent : list order_params;
  cancels : list Z;
  active_grids : gmap string grid;
  threads : list string;
  log : list string
}.

Definition initial : state := State 0 [] [] ∅ [] [].

(** An element of the answer of [client.get_open_orders]; the key
    ['orderId'] may be missing from a malformed answer. *)
Record open_order := OpenOrder { oo_orderId : option Z }.

(** The dictionary [setup_grid] returns. *)
Record initialized := Initialized {
  r_grid_id : string;
  r_symbol : string;
  r_grid_type : string;
  r_grid_lines : Z;
  r_order_qty : float;
  r_grid_levels : list level
}.

Inductive setup_result :=
  | INITIALIZED (r : initialized)
  | SetupError (msg : string).    (* {'error': msg, 'status': 'ERROR'} *)

(** The dictionary [monitor_grid] returns; [m_completion] is the
    percentage before it is formatted, [None] for ["0%"]. *)
Record monitored := Monitored {
  m_grid_id : string;
  m_status : grid_status;
  m_orders_placed : Z;
  m_orders_filled : Z;
  m_completion : option float;
  m_levels : list level
}.

Inductive monitor_result :=
  | MonitorOk (r : monitored)
  | MonitorError (msg : string).

Inductive close_result :=
  | CLOSED_OK (grid_id : string) (orders_cancelled : Z)
  | CloseError (msg : string).

Definition set_level_status (st : level_status) (l : level) : level :=
  Level (level_no l) (price l) (side l) (order_type l) (quantity l) st
        (order_id l) (error l).

Definition set_level_order_id (oid : Z) (l : level) : level :=
  Level (level_no l) (price l) (side l) (order_type l) (quantity l) (status l)
        (Some oid) (error l).

Definition set_level_error (msg : string) (l : level) : level :=
  Level (level_no l) (price l) (side l) (order_type l) (quantity l) (status l)
        (order_id l) (Some msg).

Definition with_levels (f : list level -> list level) (g : grid) : grid :=
  GridRec (symbol g) (lower_price g) (upper_price g) (grid_lines g)
          (order_qty g) (grid_type g) (f (levels g)) (grid_state g)
          (orders_placed g) (orders_filled g).

Definition set_grid_state (st : grid_status) (g : grid) : grid :=
  GridRec (symbol g) (lower_price g) (upper_price g) (grid_lines g)
          (order_qty g) (grid_type g) (levels g) st
          (orders_placed g) (orders_filled g).

Definition set_orders_placed (n : Z) (g : grid) : grid :=
  GridRec (symbol g) (lower_price g) (upper_price g) (grid_lines g)
          (order_qty g) (grid_type g) (levels g) (grid_state g)
          n (orders_filled g).

Definition set_orders_filled (n : Z) (g : grid) : grid :=
  GridRec (symbol g) (lower_price g) (upper_price g) (grid_lines g)
          (order_qty g) (grid_type g) (levels g) (grid_state g)
          (orders_placed g) n.

Definition with_grids (f : gmap string grid -> gmap string grid)
    (s : state) : state :=
  State (reads s) (sent s) (cancels s) (f (active_grids s)) (threads s) (log s).

(** The body of the loop of [setup_grid] over [enumerate(prices)]. *)
Definition grid_level (order_qty : float) (i : nat) (p : float) : level :=
  let i := Z.of_nat i in
  if i mod 2 =? 0
  then Level (i + 1) (np_round2 p) BUY "BUY limit" order_qty PENDING None None
  else Level (i + 1) (np_round2 p) SELL "SELL limit" order_qty PENDING None None.

Definition build_grid_levels (prices : list float) (order_qty : float)
    : list level :=
  imap (grid_level order_qty) prices.


(** The limit order [_place_grid_orders] posts for a level. *)
Definition level_order (sym : string) (l : level) : order_params :=
OrderParams (str_upper sym) (str_upper (side_str (side l))) "LIMIT"
            (py_round (quantity l) 8) (Some (py_round (price l) 2)) (Some "GTC").

(** What the loop of [monitor_grid] makes of one level. *)
Definition monitor_level (ids : list Z) (l : level) : level :=
match order_id l with
| Some oid => set_level_status (if bool_decide (oid ∈ ids) then OPEN else FILLED) l
| None => l
end.

Section Methods.
Context (E : environment) (M : numpy_math).
(** Whether the venue's answer to [cancel_order] for an order id has an
    ['orderId']. *)
Context (cancel_acked : Z -> bool).

(** [self.logger.log(event_type, ...)] *)
Definition logger_log (event_type : string) : py state unit :=
  modify (fun s => State (reads s) (sent s) (cancels s) (active_grids s)
                         (threads s) (log s ++ [event_type])).

Definition read_clock : py state Z :=
  fun s => (inr (clock E (reads s)),
            State (S (reads s)) (sent s) (cancels s) (active_grids s)
                  (threads s) (log s)).

(** [int(time.time())] *)
Definition time_time_int : py state Z :=
  lookup_global module_globals "time" ;;
  t ← read_clock ;
  mret (t / us_per_second - unix_epoch_seconds).

(** [time.sleep(x)] *)
Definition time_sleep (x : float) : py state unit :=
  lookup_global module_globals "time" ;;
  match sleep_error x with
  | Some e => raise e
  | None => mret tt
  end.

(** [threading.Thread(target=self._place_grid_orders, args=(grid_id,))]
    with [daemon] set, started. *)
Definition thread_start (grid_id : string) : py state unit :=
  lookup_global module_globals "threading" ;;
  modify (fun s => State (reads s) (sent s) (cancels s) (active_grids s)
                         (threads s ++ [grid_id]) (log s)).

(** [BinanceFuturesClient.new_order]: never raises. *)
Definition new_order (p : order_params) : py state venue_response :=
  fun s => (inr (venue E (length (sent s)) p),
            State (reads s) (sent s ++ [p]) (cancels s) (active_grids s)
                  (threads s) (log s)).

(** [BinanceFuturesClient.cancel_order]: never raises; the result says
    whether the answer has an ['orderId']. *)
Definition cancel_order (oid : Z) : py state bool :=
  fun s => (inr (cancel_acked oid),
            State (reads s) (sent s) (cancels s ++ [oid]) (active_grids s)
                  (threads s) (log s)).

(** [LimitOrder.place_order(symbol, side, quantity, price, 'GTC')]; the
    price is sent as the text of [round(price, 2)], kept as that float. *)
Definition limit_place_order (sym sd : string) (qty p : float)
    (time_in_force : string) : py state venue_response :=
  logger_log "LIMIT_ORDER" ;;
  response ← new_order (OrderParams (str_upper sym) (str_upper sd) "LIMIT"
                                    (py_round qty 8) (Some (py_round p 2))
                                    (Some time_in_force)) ;
  match response with
  | Acked _ => logger_log "SUCCESS"
  | _ => logger_log "ERROR"
  end ;;
  mret response.

(** The prices of the grid lines. *)
Definition grid_prices (gtype : string) (lower upper : float) (lines : Z)
    : py state (list float) :=
  if bool_decide (str_lower gtype = "geometric") then
    lookup_global module_globals "np" ;;
    np_geomspace M lower upper lines
  else
    lookup_global module_globals "np" ;;
    np_linspace lower upper lines.

(** [GridStrategy.setup_grid] *)
Definition setup_grid (sym : string) (lower upper : float) (lines : Z)
    (qty : float) (gtype : string) : py state setup_result :=
  try_except
    (prices ← grid_prices gtype lower upper lines ;
     let grid_levels := build_grid_levels prices qty in
     t ← time_time_int ;
     let grid_id := "grid_" +:+ sym +:+ "_" +:+ pretty t in
     modify (with_grids
               (insert grid_id
                  (GridRec sym lower upper lines qty gtype grid_levels
                           SETUP 0 0))) ;;
     logger_log "GRID" ;;
     thread_start grid_id ;;
     mret (INITIALIZED (Initialized grid_id sym gtype lines qty grid_levels)))
    (fun e =>
       let error_msg := "Error setting up grid: " +:+ exn_str e in
       logger_log "ERROR" ;;
       mret (SetupError error_msg)).

(** [level[...] = ...] on the level at position [k] of the grid. *)
Definition update_level (grid_id : string) (k : nat) (f : level -> level)
    : py state unit :=
  modify (with_grids (alter (with_levels (alter f k)) grid_id)).

Definition update_grid (grid_id : string) (f : grid -> grid)
    : py state unit :=
  modify (with_grids (alter f grid_id)).

(** One turn of the loop of [_place_grid_orders], on the level at
    position [k]. *)
Definition place_level (grid_id sym : string) (k : nat) : py state unit :=
  s ← get_state ;
  match active_grids s !! grid_id ≫= (fun g => levels g !! k) with
  | None => mret tt
  | Some lv =>
      try_except
        (result ← limit_place_order sym (side_str (side lv)) (quantity lv)
                                    (price lv) "GTC" ;
         match result with
         | Acked oid =>
             update_level grid_id k (set_level_status PLACED) ;;
             update_level grid_id k (set_level_order_id oid) ;;
             update_grid grid_id
               (fun g => set_orders_placed (orders_placed g + 1) g) ;;
             logger_log "GRID_ORDER"
         | Rejected msg =>
             update_level grid_id k (set_level_status FAILED) ;;
             update_level grid_id k (set_level_error msg)
         | TransportError _ =>
             update_level grid_id k (set_level_status FAILED) ;;
             update_level grid_id k (set_level_error "Unknown error")
         end)
        (fun e =>
           update_level grid_id k (set_level_status ERROR) ;;
           update_level grid_id k (set_level_error (exn_str e)) ;;
           logger_log "ERROR") ;;
      time_sleep 0x1.999999999999ap-4   (* 0.1 *)
  end.

(** [GridStrategy._place_grid_orders] *)
Definition place_grid_orders (grid_id : string) : py state unit :=
  try_except
    (s ← get_state ;
     match active_grids s !! grid_id with
     | None => mret tt
     | Some g =>
         for_each (seq 0 (length (levels g))) (place_level grid_id (symbol g)) ;;
         update_grid grid_id (set_grid_state ACTIVE) ;;
         logger_log "GRID"
     end)
    (fun e => logger_log "ERROR").

(** [[str(order['orderId']) for order in open_orders]]; the ids are kept
    as integers, on which [str] is one to one. *)
Fixpoint open_order_ids (open_orders : list open_order) : py state (list Z) :=
  match open_orders with
  | [] => mret []
  | o :: rest =>
      match oo_orderId o with
      | None => raise (KeyError "orderId")
      | Some oid => ids ← open_order_ids rest ; mret (oid :: ids)
      end
  end.

(** The loop of [monitor_grid] over the levels, with its counter. *)
Fixpoint monitor_levels (ids : list Z) (ls : list level) (filled_orders : Z)
    : list level * Z :=
  match ls with
  | [] => ([], filled_orders)
  | l :: rest =>
      match order_id l with
      | Some oid =>
          if bool_decide (oid ∈ ids) then
            let '(rest', n) := monitor_levels ids rest filled_orders in
            (set_level_status OPEN l :: rest', n)
          else
            let '(rest', n) := monitor_levels ids rest (filled_orders + 1) in
            (set_level_status FILLED l :: rest', n)
      | None =>
          let '(rest', n) := monitor_levels ids rest filled_orders in
          (l :: rest', n)
      end
  end.

(** [GridStrategy.monitor_grid]; [open_orders] is the answer of
    [client.get_open_orders(symbol)] at this call. *)
Definition monitor_grid (open_orders : list open_order) (grid_id : string)
    : py state monitor_result :=
  try_except
    (s ← get_state ;
     match active_grids s !! grid_id with
     | None => mret (MonitorError "Grid not found")
     | Some g =>
         ids ← open_order_ids open_orders ;
         let '(levels', filled_orders) := monitor_levels ids (levels g) 0 in
         update_grid grid_id (with_levels (fun _ => levels')) ;;
         update_grid grid_id (set_orders_filled filled_orders) ;;
         mret (MonitorOk
                 (Monitored grid_id (grid_state g) (orders_placed g)
                    filled_orders
                    (if 0 <? orders_placed g
                     then Some (float_of_Z filled_orders
                                / float_of_Z (orders_placed g) * 100)%float
                     else None)
                    levels'))
     end)
    (fun e =>
       let error_msg := "Error monitoring grid: " +:+ exn_str e in
       logger_log "ERROR" ;;
       mret (MonitorError error_msg)).

(** The loop of [close_grid] over the open orders; its bare [except]
    swallows the missing key. *)
Fixpoint cancel_open_orders (open_orders : list open_order) (cancelled : Z)
    : py state Z :=
  match open_orders with
  | [] => mret cancelled
  | o :: rest =>
      match oo_orderId o with
      | None => cancel_open_orders rest cancelled
      | Some oid =>
          acked ← cancel_order oid ;
          cancel_open_orders rest (if acked : bool then cancelled + 1 else cancelled)
      end
  end.

(** [GridStrategy.close_grid]; [open_orders] is the answer of
    [client.get_open_orders(symbol)] at this call. *)
Definition close_grid (open_orders : list open_order) (grid_id : string)
    : py state close_result :=
  try_except
    (s ← get_state ;
     match active_grids s !! grid_id with
     | None => mret (CloseError "Grid not found")
     | Some g =>
         cancelled ← cancel_open_orders open_orders 0 ;
         update_grid grid_id (set_grid_state CLOSED) ;;
         logger_log "GRID" ;;
         mret (CLOSED_OK grid_id cancelled)
     end)
    (fun e =>
       let error_msg := "Error closing grid: " +:+ exn_str e in
       logger_log "ERROR" ;;
       mret (CloseError error_msg)).

End Methods.
End Grid.

(** The grid after a pass of [monitor_grid] that found the ids [ids] open:
    every level as the loop leaves it, and the counter it reached. *)
Definition reconciled (ids : list Z) (g : Grid.grid) : Grid.grid :=
Grid.set_orders_filled (snd (Grid.monitor_levels ids (Grid.levels g) 0))
  (Grid.with_levels (fun _ => Grid.monitor_level ids <$> Grid.levels g) g).

(** ** [src/market_orders.py] *)

(** [min(a, b)] on floats: the first argument unless the second is smaller. *)
Definition py_min (a b : float) : float := if PrimFloat.ltb b a then b else a.

Module Market.

(** The parameters [MarketOrder.place_order] hands to [client.new_order];
    ['type'] is always ['MARKET'] and ['newOrderRespType'] always ['RESULT']. *)
Record request := Request {
  q_symbol : string;
  q_side : string;
  q_quantity : float;
  q_reduce_only : bool
}.

(** An element of the answer of [client.get_position_info]; [pos_amount] is
    what [float(position['positionAmt'])] reads. *)
Record position := Position {
  pos_symbol : string;
  pos_amount : float
}.

Record state := State {
  sent : list request;
  log : list string
}.

(** What [place_order] and [close_position] return: the answer of the venue,
    or the dictionary [{'error': msg, 'status': 'ERROR'}]. *)
Inductive result :=
  | Answer (r : venue_response)
  | OrderError (msg : string).

Section Methods.
(** The answer of the venue to the [n]-th order it is sent. *)
Context (answer : nat -> request -> venue_response).

Definition logger_log (event_type : string) : py state unit :=
  modify (fun s => State (sent s) (log s ++ [event_type])).

(** [BinanceFuturesClient.new_order]: never raises. *)
Definition new_order (q : request) : py state venue_response :=
  fun s => (inr (answer (length (sent s)) q), State (sent s ++ [q]) (log s)).

(** [MarketOrder.place_order] *)
Definition place_order (sym sd : string) (qty : float) (reduce_only : bool)
    : py state result :=
  try_except
    (logger_log "MARKET_ORDER" ;;
     response ← new_order (Request (str_upper sym) (str_upper sd) (py_round qty 8)
                                   reduce_only) ;
     match response with
     | Acked _ => logger_log "SUCCESS"
     | _ => logger_log "ERROR"
     end ;;
     mret (Answer response))
    (fun e =>
       let error_msg := "Error placing market order: " +:+ exn_str e in
       logger_log "ERROR" ;;
       mret (OrderError error_msg)).

(** [MarketOrder.close_position]; [positions] is the answer of
    [client.get_position_info(symbol)] at this call, [sd] the [side] argument
    (which the body never reads) and [qty] the [quantity] argument. *)
Definition close_position (positions : list position) (sym : string)
    (sd : option string) (qty : option float) : py state result :=
  try_except
    (match List.find (fun p => String.eqb (pos_symbol p) sym) positions with
     | None => mret (OrderError "No position to close")
     | Some p =>
         if PrimFloat.eqb (pos_amount p) 0
         then mret (OrderError "No position to close")
         else
           let pos_side := if PrimFloat.ltb 0 (pos_amount p) then "SELL" else "BUY" in
           let close_side := if String.eqb pos_side "BUY" then "SELL" else "BUY" in
           let close_qty :=
             match qty with
             | None => abs (pos_amount p)
             | Some q => py_min (abs (pos_amount p)) q
             end in
           logger_log "CLOSE_POSITION" ;;
           place_order sym close_side close_qty true
     end)
    (fun e =>
       let error_msg := "Error closing position: " +:+ exn_str e in
       logger_log "ERROR" ;;
       mret (OrderError error_msg)).

End Methods.
End Market.

(** ** [src/advanced/oco.py] *)

Module OCO.

(** The names the module binds: the client, the logger, the typing names and
    its class. *)
Definition module_globals : list string :=
  ["BinanceFuturesClient"; "TradingLogger"; "Dict"; "List"; "Tuple"; "OCOOrder"].

(** The parameters of [client.new_oco_order]; the prices are sent as the
    text of the rounded float and kept as that float. *)
Record request := Request {
  o_symbol : string;
  o_side : string;
  o_quantity : float;
  o_price : float;
  o_stop_price : float;
  o_stop_limit_price : float;
  o_stop_limit_time_in_force : string;
  o_list_client_order_id : string;
  o_limit_client_order_id : string;
  o_stop_client_order_id : string;
  o_limit_iceberg_qty : option float;
  o_stop_iceberg_qty : option float
}.

(** The answer of [client.new_oco_order]: a body with an ['orderListId'] and
    its ['orders'], or anything else. *)
Inductive response :=
  | Listed (orderListId : Z) (orders : list Z)
  | NotListed (body : string).

Inductive result :=
  | Answer (r : response)
  | OrderError (msg : string).    (* {'error': msg, 'status': 'ERROR'} *)

Record state := State {
  reads : nat;
  sent : list request;
  log : list string
}.

(** [if x:] on an optional float: neither [None] nor zero. *)
Definition truthy (x : option float) : option float :=
  match x with
  | Some v => if PrimFloat.eqb v 0 then None else Some v
  | None => None
  end.

Section Methods.
Context (E : environment) (answer : nat -> request -> response).

Definition logger_log (event_type : string) : py state unit :=
  modify (fun s => State (reads s) (sent s) (log s ++ [event_type])).

Definition read_clock : py state Z :=
  fun s => (inr (clock E (reads s)), State (S (reads s)) (sent s) (log s)).

(** [int(time.time() * 1000)] *)
Definition time_time_ms : py state Z :=
  lookup_global module_globals "time" ;;
  t ← read_clock ;
  mret (t / 1000 - unix_epoch_seconds * 1000).

(** [BinanceFuturesClient.new_oco_order]: never raises. *)
Definition new_oco_order (q : request) : py state response :=
  fun s => (inr (answer (length (sent s)) q),
            State (reads s) (sent s ++ [q]) (log s)).

(** [OCOOrder.place_order] *)
Definition place_order (sym sd : string) (qty price stop_price : float)
    (stop_limit_price limit_iceberg_qty stop_iceberg_qty : option float)
    : py state result :=
  try_except
    (logger_log "OCO_ORDER" ;;
     let stop_limit_price := default stop_price stop_limit_price in
     t1 ← time_time_ms ;
     t2 ← time_time_ms ;
     t3 ← time_time_ms ;
     let order_params :=
       Request (str_upper sym) (str_upper sd) (py_round qty 8) (py_round price 2)
               (py_round stop_price 2) (py_round stop_limit_price 2) "GTC"
               ("oco_" +:+ pretty t1) ("limit_" +:+ pretty t2) ("stop_" +:+ pretty t3)
               ((fun v => py_round v 8) <$> truthy limit_iceberg_qty)
               ((fun v => py_round v 8) <$> truthy stop_iceberg_qty) in
     response ← new_oco_order order_params ;
     match response with
     | Listed _ orders =>
         logger_log "SUCCESS" ;;
         for_each orders (fun _ => logger_log "OCO_DETAIL")
     | NotListed _ => logger_log "ERROR"
     end ;;
     mret (Answer response))
    (fun e =>
       let error_msg := "Error placing OCO order: " +:+ exn_str e in
       logger_log "ERROR" ;;
       mret (OrderError error_msg)).

End Methods.
End OCO.

(** ** [src/binance_client.py] *)

(** [BinanceFuturesClient.get_open_orders]: the answer of the request, or
    the empty list when the request raised. *)
Definition get_open_orders {A : Type} (request : py_exception + list A) : list A :=
match request with
| inr open_orders => open_orders
| inl _ => []
end.

(** Whether the loop of [monitor_grid] counts a level: it has an order id
    and the id is not among the open ones. *)
Definition counts_as_filled (ids : list Z) (l : Grid.level) : bool :=
match Grid.order_id l with
| Some oid => negb (bool_decide (oid ∈ ids))
| None => false
end.

(** What [monitor_grid] never writes: of a level, and of a grid. *)
Definition level_terms (l : Grid.level)
    : Z * float * venue_side * string * float * option Z * option string :=
(Grid.level_no l, Grid.price l, Grid.side l, Grid.order_type l, Grid.quantity l,
 Grid.order_id l, Grid.error l).

Definition grid_terms (g : Grid.grid)
    : string * float * float * Z * float * string * Grid.grid_status * Z :=
(Grid.symbol g, Grid.lower_price g, Grid.upper_price g, Grid.grid_lines g,
 Grid.order_qty g, Grid.grid_type g, Grid.grid_state g, Grid.orders_placed g).

(** ** Reading a plan *)

(** The time planned for chunk [i] when the clock reads [now], as a value:
    [inl] when the offset or the sum is not a representable time. *)
Definition planned_time (now : Z) (interval_seconds : float) (i : Z)
    : py_exception + Z :=
fst (time_after now interval_seconds i tt).


(** The plan in the answer of [execute], empty for the error dictionary. *)
Definition plan_of (out : py_exception + TWAP.execute_result) : list TWAP.plan_entry :=
match out with
| inr (TWAP.STARTED r) => TWAP.r_execution_plan r
| _ => []
end.

(** The exact value of a finite float in units of 2^-1074, of which every
    finite binary64 value is a whole number. *)
Definition float_units (x : float) : option Z := float_scaled_to_Z (2 ^ 1074) x.

(** [|sum(qs) - total| <= 1e-8] on the exact values of the floats. *)
Definition sum_within_1e8 (qs : list float) (total : float) : bool :=
match mapM float_units qs, float_units total with
| Some us, Some t => Z.abs (foldr Z.add 0 us - t) * 10 ^ 8 <=? 2 ^ 1074
| _, _ => false
end.

(** [sum(qs)] added up in floats from the left, and
    [abs(sum(qs) - total) <= 1e-8] evaluated in floats. *)
Definition py_sum (qs : list float) : float := foldl PrimFloat.add 0%float qs.





(** The prices stored in the levels of a grid. *)
Definition ladder (levels : list Grid.level) : list float := Grid.price <$> levels.

(** ** Inputs of the worked examples *)

(** A clock stopped at one microsecond of the year 2025 and a venue that
    accepts every order, numbering them from 1000. *)
Definition example_clock (n : nat) : Z := 63900000000000000.

Definition accepting_venue (n : nat) (p : order_params) : venue_response :=
Acked (1000 + Z.of_nat n).

Definition example_env : environment := Environment example_clock accepting_venue.

(** A venue that rejects the order sent at position [k] and accepts the rest. *)
Definition rejecting_venue (k : nat) (n : nat) (p : order_params) : venue_response :=
if (n =? k)%nat then Rejected "Order would immediately trigger."
else Acked (1000 + Z.of_nat n).

(** The arithmetic examples never reach the logarithm and the power. *)
Definition arithmetic_only : numpy_math := NumpyMath (fun x => x) (fun x => x).

(** A grid of two levels after its orders were sent: the first was
    acknowledged with order id 7, the second was refused. *)
Definition example_grid : Grid.grid :=
Grid.GridRec "BTCUSDT" 48000 52000 2 0.5 "Arithmetic"
  [Grid.Level 1 48000 BUY "BUY limit" 0.5 Grid.PLACED (Some 7) None;
   Grid.Level 2 52000 SELL "SELL limit" 0.5 Grid.FAILED None (Some "Unknown error")]
  Grid.ACTIVE 1 0.

Definition example_grid_state : Grid.state :=
Grid.State 0 [] [] (<["grid_BTCUSDT_1" := example_grid]> ∅) [] [].

(** A TWAP run whose background thread has finished its four chunks. *)
Definition completed_run : TWAP.strategy :=
TWAP.Strategy "BTCUSDT" "BUY" 1 4 63900000000000000 TWAP.COMPLETED
  (Some 63900003600000000) None.

Definition completed_state : TWAP.state :=
TWAP.State 2 [] (<["twap_BTCUSDT_1" := completed_run]> ∅) [] [].

(** The scenario of the specification: 1.0 BTCUSDT bought over one hour in
    four chunks; the run as [execute] registers it and the arguments of its
    background thread. *)
Definition example_worker : TWAP.worker_args :=
TWAP.WorkerArgs "twap_BTCUSDT_1" "BTCUSDT" "BUY" 0.25 4 900.

Definition running_run : TWAP.strategy :=
TWAP.Strategy "BTCUSDT" "BUY" 1 0 63900000000000000 TWAP.RUNNING None None.

Definition running_state : TWAP.state :=
TWAP.State 6 [] (<["twap_BTCUSDT_1" := running_run]> ∅) [example_worker] ["TWAP"].

(** The same clock with a venue that rejects the third order it is sent
    (the child at index 2). *)
Definition rejecting_env : environment :=
Environment example_clock (rejecting_venue 2).

(** A grid as [setup_grid] would register it, had it not raised: three
    arithmetic levels waiting for their orders. *)
Definition pending_grid : Grid.grid :=
Grid.GridRec "BTCUSDT" 48000 52000 3 0.5 "Arithmetic"
  (Grid.build_grid_levels [48000; 50000; 52000]%float 0.5) Grid.SETUP 0 0.

Definition pending_grid_state : Grid.state :=
Grid.State 0 [] [] (<["grid_BTCUSDT_1" := pending_grid]> ∅) [] [].

(** * Properties *)

(** ** Running a method body *)

Ltac py_unfold :=
  unfold mbind, mret, py_mbind, py_mret, py_bind, py_ret, try_except, raise,
         modify, get_state in *.

Lemma lookup_global_bound {W} (globals : list string) (name : string) (w : W) :
  name ∈ globals -> lookup_global globals name w = (inr tt, w).
Proof.
  intros Hin. unfold lookup_global.
  rewrite bool_decide_eq_true_2 by exact Hin. reflexivity.
Qed.

Lemma lookup_global_unbound {W} (globals : list string) (name : string) (w : W) :
  name ∉ globals -> lookup_global globals name w = (inl (NameError name), w).
Proof.
  intros Hin. unfold lookup_global.
  rewrite bool_decide_eq_false_2 by exact Hin. reflexivity.
Qed.

(** [grid.py] binds neither [time] nor [threading]; [twap.py] binds both. *)
Lemma grid_time_unbound : "time" ∉ Grid.module_globals.
Proof. apply (bool_decide_unpack _). vm_compute. exact I. Qed.

Lemma grid_threading_unbound : "threading" ∉ Grid.module_globals.
Proof. apply (bool_decide_unpack _). vm_compute. exact I. Qed.

Lemma grid_np_bound : "np" ∈ Grid.module_globals.
Proof. apply (bool_decide_unpack _). vm_compute. exact I. Qed.

Lemma twap_time_bound : "time" ∈ TWAP.module_globals.
Proof. apply (bool_decide_unpack _). vm_compute. exact I. Qed.

Lemma twap_threading_bound : "threading" ∈ TWAP.module_globals.
Proof. apply (bool_decide_unpack _). vm_compute. exact I. Qed.

Lemma twap_datetime_bound : "datetime" ∈ TWAP.module_globals.
Proof. apply (bool_decide_unpack _). vm_compute. exact I. Qed.

Lemma twap_timedelta_bound : "timedelta" ∈ TWAP.module_globals.
Proof. apply (bool_decide_unpack _). vm_compute. exact I. Qed.

(** ** numpy leaves the strategy object alone *)

Lemma np_linspace_state {W} (start stop : float) (num : Z) (w : W) :
  snd (np_linspace start stop num w) = w.
Proof. unfold np_linspace. destruct (num <? 0); reflexivity. Qed.

Lemma np_geomspace_state {W} (M : numpy_math) (start stop : float) (num : Z) (w : W) :
  snd (np_geomspace M start stop num w) = w.
Proof.
  unfold np_geomspace.
  destruct (PrimFloat.eqb start 0 || PrimFloat.eqb stop 0); [reflexivity|].
  py_unfold.
  pose proof (np_linspace_state (np_log10 M (start / np_sign start))
                (np_log10 M (stop / np_sign start)) num w) as Hs.
  destruct (np_linspace _ _ num w) as [[e|y] w']; simpl in *; congruence.
Qed.

Section GridSetup.
Context (E : environment) (M : numpy_math).

Lemma grid_prices_state gtype lower upper lines (s : Grid.state) :
  snd (Grid.grid_prices M gtype lower upper lines s) = s.
Proof.
  unfold Grid.grid_prices.
  destruct (bool_decide (str_lower gtype = "geometric")); py_unfold;
    rewrite (lookup_global_bound _ _ _ grid_np_bound).
  - apply np_geomspace_state.
  - apply np_linspace_state.
Qed.

Lemma grid_time_time_raises (s : Grid.state) :
  Grid.time_time_int E s = (inl (NameError "time"), s).
Proof.
  unfold Grid.time_time_int. py_unfold.
  rewrite (lookup_global_unbound _ _ _ grid_time_unbound). reflexivity.
Qed.

(** What [setup_grid] does, whatever it is given: the price computation
    either raises, or succeeds and the lookup of [time] raises; the handler
    logs and returns the error dictionary. *)
Lemma setup_grid_run sym lower upper lines qty gtype (s : Grid.state) :
  exists e,
    Grid.setup_grid E M sym lower upper lines qty gtype s
    = (inr (Grid.SetupError ("Error setting up grid: " +:+ exn_str e)),
       Grid.State (Grid.reads s) (Grid.sent s) (Grid.cancels s)
                  (Grid.active_grids s) (Grid.threads s)
                  (Grid.log s ++ ["ERROR"]))
    /\ (forall prices,
          fst (Grid.grid_prices M gtype lower upper lines s) = inr prices ->
          e = NameError "time").
Proof.
  unfold Grid.setup_grid. py_unfold.
  pose proof (grid_prices_state gtype lower upper lines s) as Hs.
  destruct (Grid.grid_prices M gtype lower upper lines s) as [[e|prices] s'];
    simpl in Hs; subst s'.
  - exists e. split; [reflexivity|]. intros prices Hp. discriminate Hp.
  - exists (NameError "time"). rewrite grid_time_time_raises.
    split; [reflexivity|]. intros; reflexivity.
Qed.

(** C2. For every input, [GridStrategy.setup_grid] returns the error
    dictionary [{'error': ..., 'status': 'ERROR'}]: [grid.py] imports
    neither [time] nor [threading], so once the prices are computed the
    evaluation of [int(time.time())] raises [NameError], which the blanket
    [except] turns into the error return.  No grid is registered in
    [active_grids], no thread is started and no order is sent. *)
Theorem setup_grid_always_errors sym lower upper lines qty gtype (s : Grid.state) :
  let out := Grid.setup_grid E M sym lower upper lines qty gtype s in
  (exists e, fst out = inr (Grid.SetupError ("Error setting up grid: " +:+ exn_str e))
             /\ (forall prices,
                   fst (Grid.grid_prices M gtype lower upper lines s) = inr prices ->
                   e = NameError "time"))
  /\ Grid.active_grids (snd out) = Grid.active_grids s
  /\ Grid.threads (snd out) = Grid.threads s
  /\ Grid.sent (snd out) = Grid.sent s.
Proof.
  intros out. subst out.
  destruct (setup_grid_run sym lower upper lines qty gtype s) as (e & Hrun & He).
  rewrite Hrun. simpl. split; [|auto].
  exists e. split; [reflexivity|exact He].
Qed.

End GridSetup.

(** ** Float comparisons against zero *)



(** ** The length of the price ladder *)

Lemma length_py_range (n : Z) : length (py_range n) = Z.to_nat n.
Proof. unfold py_range. rewrite length_fmap, length_seq. reflexivity. Qed.



(** ** The sides of the levels *)




Section GridLevels.
Context (M : numpy_math).



End GridLevels.


(** ** Reconciliation: [monitor_grid] *)

Lemma alter_present `{Countable K} {A} (f : A -> A) (m : gmap K A) (i : K) (x : A) :
  m !! i = Some x -> alter f i m = <[i := f x]> m.
Proof.
  intros Hi. rewrite <- (insert_id m i x Hi) at 1. apply alter_insert_eq.
Qed.

Section GridMonitor.
Context (E : environment) (M : numpy_math) (cancel_acked : Z -> bool).

(** The list comprehension over the open orders reads their ids, or raises
    on the first one without an ['orderId']; the state is not touched. *)
Lemma open_order_ids_run (opens : list Grid.open_order) (s : Grid.state) :
  Grid.open_order_ids opens s
  = match mapM Grid.oo_orderId opens with
    | Some ids => (inr ids, s)
    | None => (inl (KeyError "orderId"), s)
    end.
Proof.
  induction opens as [|o opens IH]; [reflexivity|].
  cbn [Grid.open_order_ids mapM]. destruct (Grid.oo_orderId o) as [oid|]; [|reflexivity].
  py_unfold. rewrite IH. simpl.
  destruct (mapM Grid.oo_orderId opens); reflexivity.
Qed.

Lemma monitor_levels_fst ids (ls : list Grid.level) (n : Z) :
  fst (Grid.monitor_levels ids ls n) = Grid.monitor_level ids <$> ls.
Proof.
  revert n. induction ls as [|l ls IH]; intros n; [reflexivity|].
  cbn [Grid.monitor_levels fmap list_fmap]. unfold Grid.monitor_level at 1.
  destruct (Grid.order_id l) as [oid|].
  - destruct (bool_decide (oid ∈ ids)).
    + specialize (IH n). destruct (Grid.monitor_levels ids ls n). simpl in *. congruence.
    + specialize (IH (n + 1)). destruct (Grid.monitor_levels ids ls (n + 1)).
      simpl in *. congruence.
  - specialize (IH n). destruct (Grid.monitor_levels ids ls n). simpl in *. congruence.
Qed.

Lemma monitor_level_order_id ids (l : Grid.level) :
  Grid.order_id (Grid.monitor_level ids l) = Grid.order_id l.
Proof. unfold Grid.monitor_level. destruct (Grid.order_id l) eqn:Ho; exact Ho. Qed.

Lemma monitor_level_idem ids (l : Grid.level) :
  Grid.monitor_level ids (Grid.monitor_level ids l) = Grid.monitor_level ids l.
Proof.
  unfold Grid.monitor_level at 1. rewrite monitor_level_order_id.
  unfold Grid.monitor_level. destruct (Grid.order_id l); reflexivity.
Qed.

(** The counter only depends on which levels have an id that is still open,
    which one pass does not change. *)
Lemma monitor_levels_snd_again ids (ls : list Grid.level) (n : Z) :
  snd (Grid.monitor_levels ids (Grid.monitor_level ids <$> ls) n)
  = snd (Grid.monitor_levels ids ls n).
Proof.
  revert n. induction ls as [|l ls IH]; intros n; [reflexivity|].
  cbn [Grid.monitor_levels fmap list_fmap]. rewrite monitor_level_order_id.
  destruct (Grid.order_id l) as [oid|].
  - destruct (bool_decide (oid ∈ ids)).
    + specialize (IH n).
      destruct (Grid.monitor_levels ids (Grid.monitor_level ids <$> ls) n),
               (Grid.monitor_levels ids ls n). exact IH.
    + specialize (IH (n + 1)).
      destruct (Grid.monitor_levels ids (Grid.monitor_level ids <$> ls) (n + 1)),
               (Grid.monitor_levels ids ls (n + 1)). exact IH.
  - specialize (IH n).
    destruct (Grid.monitor_levels ids (Grid.monitor_level ids <$> ls) n),
             (Grid.monitor_levels ids ls n). exact IH.
Qed.

Lemma monitor_levels_again ids (ls : list Grid.level) (n : Z) :
  Grid.monitor_levels ids (fst (Grid.monitor_levels ids ls n)) n
  = Grid.monitor_levels ids ls n.
Proof.
  rewrite monitor_levels_fst.
  apply injective_projections.
  - rewrite !monitor_levels_fst, <- list_fmap_compose.
    apply list_fmap_ext. intros i l _. apply monitor_level_idem.
  - apply monitor_levels_snd_again.
Qed.

(** [monitor_grid] in closed form. *)
Lemma monitor_grid_run (opens : list Grid.open_order) (grid_id : string) (s : Grid.state) :
  Grid.monitor_grid opens grid_id s
  = match Grid.active_grids s !! grid_id with
    | None => (inr (Grid.MonitorError "Grid not found"), s)
    | Some g =>
        match mapM Grid.oo_orderId opens with
        | None =>
            (inr (Grid.MonitorError
                    ("Error monitoring grid: " +:+ exn_str (KeyError "orderId"))),
             Grid.State (Grid.reads s) (Grid.sent s) (Grid.cancels s)
                        (Grid.active_grids s) (Grid.threads s)
                        (Grid.log s ++ ["ERROR"]))
        | Some ids =>
            let filled := snd (Grid.monitor_levels ids (Grid.levels g) 0) in
            (inr (Grid.MonitorOk
                    (Grid.Monitored grid_id (Grid.grid_state g) (Grid.orders_placed g)
                       filled
                       (if 0 <? Grid.orders_placed g
                        then Some (float_of_Z filled
                                   / float_of_Z (Grid.orders_placed g) * 100)%float
                        else None)
                       (Grid.monitor_level ids <$> Grid.levels g))),
             Grid.with_grids (insert grid_id (reconciled ids g)) s)
        end
    end.
Proof.
  unfold Grid.monitor_grid. py_unfold.
  destruct (Grid.active_grids s !! grid_id) as [g|] eqn:Hg; [|reflexivity].
  rewrite open_order_ids_run.
  destruct (mapM Grid.oo_orderId opens) as [ids|]; [|reflexivity].
  pose proof (monitor_levels_fst ids (Grid.levels g) 0) as Hfst.
  destruct (Grid.monitor_levels ids (Grid.levels g) 0) as [lv n] eqn:Hml.
  simpl in Hfst. subst lv.
  unfold Grid.update_grid. py_unfold. cbn.
  unfold Grid.with_grids. cbn.
  rewrite alter_alter_eq, (alter_present _ _ _ _ Hg).
  unfold reconciled. rewrite Hml. reflexivity.
Qed.

Lemma reconciled_again ids (g : Grid.grid) :
  reconciled ids (reconciled ids g) = reconciled ids g.
Proof.
  unfold reconciled. cbn.
  rewrite monitor_levels_snd_again.
  rewrite <- list_fmap_compose.
  rewrite (list_fmap_ext (Grid.monitor_level ids ∘ Grid.monitor_level ids)
             (Grid.monitor_level ids) (Grid.levels g))
    by (intros i l _; apply monitor_level_idem).
  reflexivity.
Qed.

(** C9. Reconciliation is idempotent when the venue state does not change:
    a second [monitor_grid] with the same answer of open orders returns what
    the first returned and leaves every grid (the status of every level, the
    filled counter, the grid state) as the first left it; it sends nothing. *)
Theorem monitor_grid_idempotent (opens : list Grid.open_order) (grid_id : string)
    (s : Grid.state) :
  let first := Grid.monitor_grid opens grid_id s in
  let second := Grid.monitor_grid opens grid_id (snd first) in
  fst second = fst first
  /\ Grid.active_grids (snd second) = Grid.active_grids (snd first)
  /\ Grid.sent (snd second) = Grid.sent (snd first)
  /\ Grid.cancels (snd second) = Grid.cancels (snd first).
Proof.
  cbv zeta. rewrite (monitor_grid_run opens grid_id s).
  destruct (Grid.active_grids s !! grid_id) as [g|] eqn:Hg.
  - destruct (mapM Grid.oo_orderId opens) as [ids|] eqn:Hids.
    + cbn [fst snd]. rewrite monitor_grid_run. cbn [Grid.active_grids Grid.with_grids].
      rewrite lookup_insert_eq, Hids. cbn [fst snd Grid.active_grids Grid.with_grids
        Grid.sent Grid.cancels].
      rewrite reconciled_again, insert_insert_eq.
      change (Grid.levels (reconciled ids g))
        with (Grid.monitor_level ids <$> Grid.levels g).
      change (Grid.orders_placed (reconciled ids g)) with (Grid.orders_placed g).
      change (Grid.grid_state (reconciled ids g)) with (Grid.grid_state g).
      rewrite monitor_levels_snd_again, <- list_fmap_compose.
      rewrite (list_fmap_ext (Grid.monitor_level ids ∘ Grid.monitor_level ids)
                 (Grid.monitor_level ids) (Grid.levels g))
        by (intros i l _; apply monitor_level_idem).
      repeat split.
    + cbn [fst snd]. rewrite monitor_grid_run. cbn [Grid.active_grids].
      rewrite Hg, Hids. repeat split.
  - cbn [fst snd]. rewrite monitor_grid_run, Hg. repeat split.
Qed.

End GridMonitor.

Section GridLifecycle.




End GridLifecycle.

(** ** Cancelling: [cancel_strategy] and [close_grid] *)

Section Cancel.
Context (E : environment) (cancel_acked : Z -> bool).

(** [cancel_strategy] in closed form. *)
Lemma cancel_strategy_run (strategy_id : string) (s : TWAP.state) :
  TWAP.cancel_strategy E strategy_id s
  = match TWAP.running_strategies s !! strategy_id with
    | None => (inr false, s)
    | Some r =>
        (inr true,
         TWAP.State (S (TWAP.reads s)) (TWAP.sent s)
           (<[strategy_id := TWAP.set_end_time (clock E (TWAP.reads s))
                               (TWAP.set_status TWAP.CANCELLED r)]>
              (TWAP.running_strategies s))
           (TWAP.threads s) (TWAP.log s ++ ["TWAP"]))
    end.
Proof.
  unfold TWAP.cancel_strategy. py_unfold.
  destruct (TWAP.running_strategies s !! strategy_id) as [r|] eqn:Hr.
  - rewrite bool_decide_eq_true_2 by (exists r; reflexivity).
    unfold TWAP.datetime_now, TWAP.read_clock, TWAP.logger_log. py_unfold.
    rewrite (lookup_global_bound _ _ _ twap_datetime_bound).
    cbn. rewrite alter_alter_eq, (alter_present _ _ _ _ Hr). reflexivity.
  - rewrite bool_decide_eq_false_2 by (intros [r Hr']; congruence).
    reflexivity.
Qed.

(** The loop of [close_grid] asks the venue to cancel every open order that
    has an id, never raises, and touches nothing else. *)
Lemma cancel_open_orders_run (opens : list Grid.open_order) (cancelled : Z)
    (s : Grid.state) :
  exists n,
    Grid.cancel_open_orders cancel_acked opens cancelled s
    = (inr n, Grid.State (Grid.reads s) (Grid.sent s)
                (Grid.cancels s ++ omap Grid.oo_orderId opens)
                (Grid.active_grids s) (Grid.threads s) (Grid.log s)).
Proof.
  revert cancelled s. induction opens as [|o opens IH]; intros cancelled s.
  - exists cancelled. cbn. rewrite app_nil_r. destruct s; reflexivity.
  - cbn [Grid.cancel_open_orders omap list_omap].
    destruct (Grid.oo_orderId o) as [oid|].
    + py_unfold. unfold Grid.cancel_order.
      destruct (IH (if cancel_acked oid then cancelled + 1 else cancelled)
                  (Grid.State (Grid.reads s) (Grid.sent s) (Grid.cancels s ++ [oid])
                     (Grid.active_grids s) (Grid.threads s) (Grid.log s)))
        as (n & Hn).
      exists n. rewrite Hn. cbn. rewrite <- app_assoc. reflexivity.
    + apply IH.
Qed.

(** [close_grid] in closed form. *)
Lemma close_grid_run (opens : list Grid.open_order) (grid_id : string) (s : Grid.state) :
  match Grid.active_grids s !! grid_id with
  | None =>
      Grid.close_grid cancel_acked opens grid_id s
      = (inr (Grid.CloseError "Grid not found"), s)
  | Some g =>
      exists n,
        Grid.close_grid cancel_acked opens grid_id s
        = (inr (Grid.CLOSED_OK grid_id n),
           Grid.State (Grid.reads s) (Grid.sent s)
             (Grid.cancels s ++ omap Grid.oo_orderId opens)
             (<[grid_id := Grid.set_grid_state Grid.CLOSED g]> (Grid.active_grids s))
             (Grid.threads s) (Grid.log s ++ ["GRID"]))
  end.
Proof.
  unfold Grid.close_grid. py_unfold.
  destruct (Grid.active_grids s !! grid_id) as [g|] eqn:Hg; [|reflexivity].
  destruct (cancel_open_orders_run opens 0 s) as (n & Hn).
  exists n. rewrite Hn. unfold Grid.update_grid, Grid.logger_log. py_unfold. cbn.
  rewrite (alter_present _ _ _ _ Hg). reflexivity.
Qed.

(** C6, as stated, fails: cancelling a run that is already COMPLETED
    succeeds (it returns [True]) and overwrites the state with CANCELLED. *)
Lemma cancel_overwrites_completed :
  ~ (forall (E' : environment) (strategy_id : string) (s : TWAP.state)
            (r r' : TWAP.strategy),
       TWAP.running_strategies s !! strategy_id = Some r ->
       TWAP.status r <> TWAP.RUNNING ->
       TWAP.running_strategies (snd (TWAP.cancel_strategy E' strategy_id s))
         !! strategy_id = Some r' ->
       fst (TWAP.cancel_strategy E' strategy_id s) = inr false
       /\ TWAP.status r' = TWAP.status r).
Proof.
  intros Hterminal.
  pose (r' := TWAP.Strategy "BTCUSDT" "BUY" 1 4 63900000000000000 TWAP.CANCELLED
                (Some 63900000000000000) None).
  assert (H1 : TWAP.running_strategies completed_state !! "twap_BTCUSDT_1"
               = Some completed_run) by (vm_compute; reflexivity).
  assert (H2 : TWAP.running_strategies
                 (snd (TWAP.cancel_strategy example_env "twap_BTCUSDT_1" completed_state))
               !! "twap_BTCUSDT_1" = Some r') by (vm_compute; reflexivity).
  destruct (Hterminal example_env "twap_BTCUSDT_1" completed_state completed_run r'
              H1 ltac:(discriminate) H2) as [_ Hbad].
  discriminate Hbad.
Qed.

(** C6, amended. [cancel_strategy] returns [False] and changes nothing when
    the id is unknown; otherwise it returns [True] and marks the run CANCELLED
    with the current time as its end, whatever the status was (RUNNING,
    COMPLETED, CANCELLED or ERROR).  [close_grid] answers 'Grid not found' and
    changes nothing when the id is unknown; otherwise it marks the grid CLOSED
    whatever its state was.  Neither raises. *)
Theorem cancel_marks_cancelled (strategy_id grid_id : string)
    (opens : list Grid.open_order) (s : TWAP.state) (gs : Grid.state) :
  match TWAP.running_strategies s !! strategy_id with
  | None => TWAP.cancel_strategy E strategy_id s = (inr false, s)
  | Some r =>
      fst (TWAP.cancel_strategy E strategy_id s) = inr true
      /\ TWAP.running_strategies (snd (TWAP.cancel_strategy E strategy_id s))
         = <[strategy_id := TWAP.set_end_time (clock E (TWAP.reads s))
                              (TWAP.set_status TWAP.CANCELLED r)]>
             (TWAP.running_strategies s)
  end
  /\
  match Grid.active_grids gs !! grid_id with
  | None =>
      Grid.close_grid cancel_acked opens grid_id gs
      = (inr (Grid.CloseError "Grid not found"), gs)
  | Some g =>
      (exists n, fst (Grid.close_grid cancel_acked opens grid_id gs)
                 = inr (Grid.CLOSED_OK grid_id n))
      /\ Grid.active_grids (snd (Grid.close_grid cancel_acked opens grid_id gs))
         = <[grid_id := Grid.set_grid_state Grid.CLOSED g]> (Grid.active_grids gs)
  end.
Proof.
  split.
  - rewrite cancel_strategy_run.
    destruct (TWAP.running_strategies s !! strategy_id); [split|]; reflexivity.
  - pose proof (close_grid_run opens grid_id gs) as Hrun.
    destruct (Grid.active_grids gs !! grid_id); [|exact Hrun].
    destruct Hrun as (n & ->). split; [exists n|]; reflexivity.
Qed.

End Cancel.

(** ** The background thread of a TWAP run *)

Section Worker.
Context (E : environment).

Lemma time_sleep_run (x : float) (s : TWAP.state) :
  TWAP.sleepable x = true -> TWAP.time_sleep x s = (inr tt, s).
Proof.
  unfold TWAP.sleepable, TWAP.time_sleep. intros Hx. py_unfold.
  rewrite (lookup_global_bound _ _ _ twap_time_bound).
  destruct (sleep_error x); [discriminate Hx|reflexivity].
Qed.

(** One loop turn posts the chunk's order and counts it as completed,
    whatever the venue answers; the answer only chooses the log line. *)
Lemma worker_iteration_run (a : TWAP.worker_args) (i : Z) (s : TWAP.state) :
  TWAP.sleepable (TWAP.w_interval_seconds a) = true ->
  TWAP.worker_iteration E a i s
  = (inr tt,
     TWAP.State (TWAP.reads s) (TWAP.sent s ++ [TWAP.chunk_order a])
       (alter (TWAP.set_chunks_completed (i + 1)) (TWAP.w_strategy_id a)
              (TWAP.running_strategies s))
       (TWAP.threads s)
       (TWAP.log s ++
          ["TWAP_EXEC"; "MARKET_ORDER";
           match venue E (length (TWAP.sent s)) (TWAP.chunk_order a) with
           | Acked _ => "SUCCESS"
           | _ => "ERROR"
           end; "TWAP_RESULT"])).
Proof.
  intros Hsleep. unfold TWAP.worker_iteration. py_unfold.
  rewrite (time_sleep_run _ _ Hsleep).
  unfold TWAP.market_place_order, TWAP.new_order, TWAP.logger_log,
         TWAP.update_strategy, TWAP.with_strategies, TWAP.chunk_order.
  py_unfold. cbn.
  destruct (venue E (length (TWAP.sent s)) _); cbn;
    rewrite <- !app_assoc; reflexivity.
Qed.

(** The statements after the loop overwrite the status with COMPLETED. *)
Lemma worker_finish_run (a : TWAP.worker_args) (s : TWAP.state) :
  exists reads' log',
    TWAP.worker_finish E a s
    = (inr tt,
       TWAP.State reads' (TWAP.sent s)
         (alter (fun r => TWAP.set_end_time (clock E (TWAP.reads s))
                            (TWAP.set_status TWAP.COMPLETED r))
                (TWAP.w_strategy_id a) (TWAP.running_strategies s))
         (TWAP.threads s) log').
Proof.
  unfold TWAP.worker_finish. py_unfold.
  destruct (TWAP.running_strategies s !! TWAP.w_strategy_id a) as [r|] eqn:Hr.
  - rewrite bool_decide_eq_true_2 by (exists r; reflexivity).
    unfold TWAP.update_strategy, TWAP.datetime_now, TWAP.read_clock, TWAP.logger_log.
    py_unfold. rewrite (lookup_global_bound _ _ _ twap_datetime_bound). cbn.
    rewrite alter_alter_eq. eexists _, _. reflexivity.
  - rewrite bool_decide_eq_false_2 by (intros [r Hr']; congruence).
    rewrite (alter_id' _ _ _ Hr). exists (TWAP.reads s), (TWAP.log s).
    destruct s; reflexivity.
Qed.

(** [cancel_strategy] seen from the other thread: it only rewrites the entry
    of the run it is given. *)
Lemma cancel_strategy_alter (strategy_id : string) (s : TWAP.state) :
  exists reads' log',
    TWAP.cancel_strategy E strategy_id s
    = (inr (bool_decide (is_Some (TWAP.running_strategies s !! strategy_id))),
       TWAP.State reads' (TWAP.sent s)
         (alter (fun r => TWAP.set_end_time (clock E (TWAP.reads s))
                            (TWAP.set_status TWAP.CANCELLED r))
                strategy_id (TWAP.running_strategies s))
         (TWAP.threads s) log').
Proof.
  rewrite cancel_strategy_run.
  destruct (TWAP.running_strategies s !! strategy_id) as [r|] eqn:Hr.
  - rewrite bool_decide_eq_true_2 by (exists r; reflexivity).
    rewrite (alter_present _ _ _ _ Hr). eexists _, _. reflexivity.
  - rewrite bool_decide_eq_false_2 by (intros [r Hr']; congruence).
    rewrite (alter_id' _ _ _ Hr). exists (TWAP.reads s), (TWAP.log s).
    destruct s; reflexivity.
Qed.

Lemma is_Some_alter (f : TWAP.strategy -> TWAP.strategy) (i j : string)
    (m : gmap string TWAP.strategy) :
  is_Some (alter f i m !! j) <-> is_Some (m !! j).
Proof.
  rewrite lookup_alter. destruct (decide (i = j)) as [->|]; [|reflexivity].
  rewrite fmap_is_Some. reflexivity.
Qed.

Lemma status_alter_keeps (f : TWAP.strategy -> TWAP.strategy) (i j : string)
    (m : gmap string TWAP.strategy) :
  (forall r, TWAP.status (f r) = TWAP.status r) ->
  TWAP.status <$> alter f i m !! j = TWAP.status <$> m !! j.
Proof.
  intros Hf. rewrite lookup_alter. destruct (decide (i = j)) as [->|]; [|reflexivity].
  destruct (m !! j); cbn; [rewrite Hf|]; reflexivity.
Qed.

Lemma status_alter_sets (f : TWAP.strategy -> TWAP.strategy) (st : TWAP.run_status)
    (i : string) (m : gmap string TWAP.strategy) :
  (forall r, TWAP.status (f r) = st) ->
  is_Some (m !! i) ->
  TWAP.status <$> alter f i m !! i = Some st.
Proof.
  intros Hf [r Hr]. rewrite lookup_alter_eq, Hr. cbn. rewrite Hf. reflexivity.
Qed.

Lemma run_schedule_app (a : TWAP.worker_args) (l1 l2 : list TWAP.action)
    (sys : TWAP.worker_pc * TWAP.state) :
  TWAP.run_schedule E a (l1 ++ l2) sys
  = TWAP.run_schedule E a l2 (TWAP.run_schedule E a l1 sys).
Proof. unfold TWAP.run_schedule. apply foldl_app. Qed.

Lemma worker_steps_app (l1 l2 : list TWAP.action) :
  TWAP.worker_steps (l1 ++ l2) = (TWAP.worker_steps l1 + TWAP.worker_steps l2)%nat.
Proof. unfold TWAP.worker_steps. rewrite filter_app, length_app. reflexivity. Qed.

(** While loop turns remain, any mix of loop turns and cancels leaves the
    thread in its loop: each loop turn has posted its order, the run is still
    registered, and a CANCELLED status stays CANCELLED. *)
Lemma run_schedule_progress (a : TWAP.worker_args) (acts : list TWAP.action) :
  TWAP.sleepable (TWAP.w_interval_seconds a) = true ->
  forall (i : nat) (s : TWAP.state),
    (i + TWAP.worker_steps acts <= Z.to_nat (TWAP.w_chunks a))%nat ->
    exists s',
      TWAP.run_schedule E a acts (TWAP.Looping i, s)
      = (TWAP.Looping (i + TWAP.worker_steps acts), s')
      /\ TWAP.sent s' = TWAP.sent s
                        ++ replicate (TWAP.worker_steps acts) (TWAP.chunk_order a)
      /\ (is_Some (TWAP.running_strategies s' !! TWAP.w_strategy_id a)
          <-> is_Some (TWAP.running_strategies s !! TWAP.w_strategy_id a))
      /\ (TWAP.status_of (TWAP.w_strategy_id a) s = Some TWAP.CANCELLED ->
          TWAP.status_of (TWAP.w_strategy_id a) s' = Some TWAP.CANCELLED).
Proof.
  intros Hsleep.
  induction acts as [|act acts IH]; intros i s Hi.
  - exists s. cbn. rewrite Nat.add_0_r, app_nil_r. repeat split; auto.
  - destruct act as [|cid].
    + change (TWAP.worker_steps (TWAP.WorkerStep :: acts))
        with (S (TWAP.worker_steps acts)) in *.
      cbn [TWAP.run_schedule foldl TWAP.step fst snd TWAP.worker_step].
      rewrite bool_decide_eq_true_2 by lia.
      rewrite (worker_iteration_run a (Z.of_nat i) s Hsleep).
      match goal with
      | |- context [foldl _ (TWAP.Looping (S i), ?st) acts] => set (s1 := st)
      end.
      destruct (IH (S i) s1 ltac:(lia)) as (s' & Hrun & Hsent & Hreg & Hst).
      exists s'. unfold TWAP.run_schedule in Hrun. rewrite Hrun.
      replace (S i + TWAP.worker_steps acts)%nat
        with (i + S (TWAP.worker_steps acts))%nat by lia.
      split; [reflexivity|]. cbn in Hsent, Hreg, Hst |- *.
      split; [rewrite Hsent, <- app_assoc; reflexivity|].
      split.
      * rewrite Hreg. apply is_Some_alter.
      * intros Hc. apply Hst. unfold TWAP.status_of in *. cbn.
        rewrite status_alter_keeps by reflexivity. exact Hc.
    + assert (Hsteps : TWAP.worker_steps (TWAP.Cancel cid :: acts)
                       = TWAP.worker_steps acts).
      { unfold TWAP.worker_steps. rewrite filter_cons.
        destruct (decide (TWAP.Cancel cid = TWAP.WorkerStep)); [discriminate|reflexivity]. }
      rewrite Hsteps in *.
      cbn [TWAP.run_schedule foldl TWAP.step fst snd].
      destruct (cancel_strategy_alter cid s) as (reads' & log' & Hcancel).
      rewrite Hcancel. cbn [snd].
      match goal with
      | |- context [foldl _ (TWAP.Looping i, ?st) acts] => set (s1 := st)
      end.
      destruct (IH i s1 Hi) as (s' & Hrun & Hsent & Hreg & Hst).
      exists s'. unfold TWAP.run_schedule in Hrun. rewrite Hrun.
      split; [reflexivity|]. cbn in Hsent, Hreg, Hst |- *.
      split; [exact Hsent|]. split.
      * rewrite Hreg. apply is_Some_alter.
      * intros Hc. apply Hst. unfold TWAP.status_of in *. cbn.
        rewrite lookup_alter. destruct (decide (cid = TWAP.w_strategy_id a)) as [->|].
        -- destruct (TWAP.running_strategies s !! TWAP.w_strategy_id a);
             [reflexivity|discriminate].
        -- exact Hc.
Qed.

(** C10. Cancelling a TWAP run does not stop its submissions.  Take the loop
    turns of the background thread in any interleaving with the caller's
    cancel (and any further cancels): [cancel_strategy] returns [True] and the
    status reads CANCELLED, yet the thread goes on, posts an order for every
    chunk, still finds the status CANCELLED when it leaves the loop, and
    overwrites it with COMPLETED. *)
Theorem cancel_does_not_stop_worker (a : TWAP.worker_args) (s : TWAP.state)
    (before after : list TWAP.action) :
  is_Some (TWAP.running_strategies s !! TWAP.w_strategy_id a) ->
  TWAP.sleepable (TWAP.w_interval_seconds a) = true ->
  TWAP.worker_steps (before ++ after) = Z.to_nat (TWAP.w_chunks a) ->
  let at_cancel := TWAP.run_schedule E a before (TWAP.Looping 0, s) in
  let cancelled :=
    TWAP.run_schedule E a [TWAP.Cancel (TWAP.w_strategy_id a)] at_cancel in
  let last := TWAP.run_schedule E a after cancelled in
  let final := TWAP.step E a TWAP.WorkerStep last in
  fst (TWAP.cancel_strategy E (TWAP.w_strategy_id a) (snd at_cancel)) = inr true
  /\ TWAP.status_of (TWAP.w_strategy_id a) (snd cancelled) = Some TWAP.CANCELLED
  /\ fst last = TWAP.Looping (Z.to_nat (TWAP.w_chunks a))
  /\ TWAP.status_of (TWAP.w_strategy_id a) (snd last) = Some TWAP.CANCELLED
  /\ fst final = TWAP.Finished
  /\ TWAP.status_of (TWAP.w_strategy_id a) (snd final) = Some TWAP.COMPLETED
  /\ TWAP.sent (snd final)
     = TWAP.sent s ++ replicate (Z.to_nat (TWAP.w_chunks a)) (TWAP.chunk_order a).
Proof.
  intros Hreg Hsleep Hsteps. cbv zeta.
  rewrite worker_steps_app in Hsteps.
  destruct (run_schedule_progress a before Hsleep 0%nat s ltac:(lia))
    as (s1 & Hrun1 & Hsent1 & Hreg1 & _).
  rewrite Hrun1. cbn [fst snd TWAP.run_schedule foldl TWAP.step].
  destruct (cancel_strategy_alter (TWAP.w_strategy_id a) s1)
    as (reads2 & log2 & Hcancel).
  rewrite Hcancel. cbn [fst snd].
  apply Hreg1 in Hreg.
  set (s2 := TWAP.State reads2 _ _ _ log2).
  assert (Hst2 : TWAP.status_of (TWAP.w_strategy_id a) s2 = Some TWAP.CANCELLED).
  { unfold TWAP.status_of, s2. cbn.
    apply status_alter_sets; [reflexivity|exact Hreg]. }
  assert (Hreg2 : is_Some (TWAP.running_strategies s2 !! TWAP.w_strategy_id a)).
  { unfold s2. cbn. apply is_Some_alter. exact Hreg. }
  destruct (run_schedule_progress a after Hsleep
              (0 + TWAP.worker_steps before)%nat s2 ltac:(lia))
    as (s3 & Hrun3 & Hsent3 & Hreg3 & Hst3).
  fold (TWAP.run_schedule E a after (TWAP.Looping (0 + TWAP.worker_steps before), s2)).
  rewrite Hrun3. cbn [fst snd TWAP.worker_step].
  change (0 + TWAP.worker_steps before)%nat with (TWAP.worker_steps before).
  rewrite Hsteps.
  rewrite (bool_decide_eq_false_2
             (Z.to_nat (TWAP.w_chunks a) < Z.to_nat (TWAP.w_chunks a))%nat) by lia.
  destruct (worker_finish_run a s3) as (reads4 & log4 & Hfin).
  rewrite Hfin. cbn [fst snd].
  split; [rewrite bool_decide_eq_true_2 by exact Hreg; reflexivity|].
  split; [exact Hst2|]. split; [reflexivity|].
  split; [exact (Hst3 Hst2)|]. split; [reflexivity|].
  split.
  - unfold TWAP.status_of. cbn.
    apply status_alter_sets; [reflexivity|]. apply Hreg3. exact Hreg2.
  - cbn. rewrite Hsent3. unfold s2. cbn. rewrite Hsent1, <- app_assoc.
    rewrite <- replicate_add, Hsteps. reflexivity.
Qed.

End Worker.

(** An execution of the scenario in which the run goes from CANCELLED to
    COMPLETED: the cancel lands after the second of the four chunks. *)
Lemma cancel_does_not_stop_worker_witness :
  let a := example_worker in
  let before := [TWAP.WorkerStep; TWAP.WorkerStep] in
  let after := [TWAP.WorkerStep; TWAP.WorkerStep] in
  is_Some (TWAP.running_strategies running_state !! TWAP.w_strategy_id a)
  /\ TWAP.sleepable (TWAP.w_interval_seconds a) = true
  /\ TWAP.worker_steps (before ++ after) = Z.to_nat (TWAP.w_chunks a)
  /\ let at_cancel :=
       TWAP.run_schedule example_env a before (TWAP.Looping 0, running_state) in
     let cancelled :=
       TWAP.run_schedule example_env a [TWAP.Cancel (TWAP.w_strategy_id a)] at_cancel in
     let last := TWAP.run_schedule example_env a after cancelled in
     let final := TWAP.step example_env a TWAP.WorkerStep last in
     fst (TWAP.cancel_strategy example_env (TWAP.w_strategy_id a) (snd at_cancel))
     = inr true
     /\ TWAP.status_of (TWAP.w_strategy_id a) (snd cancelled) = Some TWAP.CANCELLED
     /\ fst last = TWAP.Looping (Z.to_nat (TWAP.w_chunks a))
     /\ TWAP.status_of (TWAP.w_strategy_id a) (snd last) = Some TWAP.CANCELLED
     /\ fst final = TWAP.Finished
     /\ TWAP.status_of (TWAP.w_strategy_id a) (snd final) = Some TWAP.COMPLETED
     /\ TWAP.sent (snd final)
        = TWAP.sent running_state
          ++ replicate (Z.to_nat (TWAP.w_chunks a)) (TWAP.chunk_order a).
Proof.
  intros a before after.
  assert (Hreg : is_Some (TWAP.running_strategies running_state
                            !! TWAP.w_strategy_id a))
    by (exists running_run; vm_compute; reflexivity).
  assert (Hsleep : TWAP.sleepable (TWAP.w_interval_seconds a) = true)
    by (vm_compute; reflexivity).
  assert (Hsteps : TWAP.worker_steps (before ++ after) = Z.to_nat (TWAP.w_chunks a))
    by (vm_compute; reflexivity).
  split; [exact Hreg|]. split; [exact Hsleep|]. split; [exact Hsteps|].
  exact (cancel_does_not_stop_worker example_env a running_state before after
           Hreg Hsleep Hsteps).
Defined.

(** ** A failing child order in a TWAP run *)

Section WorkerRun.
Context (E : environment).

Lemma finished_stays (a : TWAP.worker_args) (k : nat) (s : TWAP.state) :
  TWAP.run_schedule E a (replicate k TWAP.WorkerStep) (TWAP.Finished, s)
  = (TWAP.Finished, s).
Proof. induction k as [|k IH]; [reflexivity|exact IH]. Qed.

(** The steps of the thread, taken without interruption, are the method
    [_execute_twap_background] as it is written: its loop, the statements
    after it, and its [except] clause. *)
Lemma worker_steps_refine_from (a : TWAP.worker_args) (m i : nat) (s : TWAP.state) :
  (i + m = Z.to_nat (TWAP.w_chunks a))%nat ->
  TWAP.run_schedule E a (replicate (m + 1) TWAP.WorkerStep) (TWAP.Looping i, s)
  = (TWAP.Finished,
     snd (try_except
            (for_each (Z.of_nat <$> seq i m) (TWAP.worker_iteration E a) ;;
             TWAP.worker_finish E a)
            (TWAP.worker_handler a) s)).
Proof.
  revert i s. induction m as [|m IH]; intros i s Him.
  - cbn [Nat.add replicate TWAP.run_schedule foldl TWAP.step fst snd TWAP.worker_step
         seq fmap list_fmap for_each].
    rewrite bool_decide_eq_false_2 by lia.
    py_unfold. destruct (TWAP.worker_finish E a s) as [[e|[]] s']; reflexivity.
  - change (replicate (S m + 1) TWAP.WorkerStep)
      with (TWAP.WorkerStep :: replicate (m + 1) TWAP.WorkerStep).
    cbn [TWAP.run_schedule foldl TWAP.step fst snd TWAP.worker_step
         seq fmap list_fmap for_each].
    rewrite bool_decide_eq_true_2 by lia.
    specialize (IH (S i)). unfold TWAP.run_schedule in IH.
    py_unfold.
    destruct (TWAP.worker_iteration E a (Z.of_nat i) s) as [[e|[]] s'].
    + pose proof (finished_stays a (m + 1) (snd (TWAP.worker_handler a e s'))) as Hf.
      unfold TWAP.run_schedule in Hf. rewrite Hf. reflexivity.
    + rewrite (IH s') by lia. py_unfold. reflexivity.
Qed.

Lemma worker_steps_refine (a : TWAP.worker_args) (s : TWAP.state) :
  TWAP.run_schedule E a (replicate (Z.to_nat (TWAP.w_chunks a) + 1) TWAP.WorkerStep)
                    (TWAP.Looping 0, s)
  = (TWAP.Finished, snd (TWAP.execute_twap_background E a s)).
Proof.
  apply (worker_steps_refine_from a (Z.to_nat (TWAP.w_chunks a)) 0 s). lia.
Qed.

(** [k] loop turns in a row: [k] orders posted, the counter at the last
    chunk, the status and the clock untouched, whatever the venue said. *)
Lemma worker_turns (a : TWAP.worker_args) :
  TWAP.sleepable (TWAP.w_interval_seconds a) = true ->
  forall (k i : nat) (s : TWAP.state),
    (i + k <= Z.to_nat (TWAP.w_chunks a))%nat ->
    exists log',
      TWAP.run_schedule E a (replicate k TWAP.WorkerStep) (TWAP.Looping i, s)
      = (TWAP.Looping (i + k),
         TWAP.State (TWAP.reads s)
           (TWAP.sent s ++ replicate k (TWAP.chunk_order a))
           (match k with
            | O => TWAP.running_strategies s
            | S _ => alter (TWAP.set_chunks_completed (Z.of_nat (i + k)))
                           (TWAP.w_strategy_id a) (TWAP.running_strategies s)
            end)
           (TWAP.threads s) log').
Proof.
  intros Hsleep. induction k as [|k IH]; intros i s Hik.
  - exists (TWAP.log s). cbn. rewrite Nat.add_0_r, app_nil_r. destruct s; reflexivity.
  - cbn [replicate TWAP.run_schedule foldl TWAP.step fst snd TWAP.worker_step].
    rewrite bool_decide_eq_true_2 by lia.
    rewrite (worker_iteration_run E a (Z.of_nat i) s Hsleep).
    match goal with
    | |- context [foldl _ (TWAP.Looping (S i), ?st) _] => set (s1 := st)
    end.
    destruct (IH (S i) s1 ltac:(lia)) as (log' & Hrun).
    unfold TWAP.run_schedule in Hrun. rewrite Hrun. exists log'.
    replace (S i + k)%nat with (i + S k)%nat by lia.
    unfold s1. cbn [TWAP.reads TWAP.sent TWAP.running_strategies TWAP.threads].
    rewrite <- app_assoc. f_equal. f_equal.
    destruct k as [|k].
    + replace (Z.of_nat (i + 1)) with (Z.of_nat i + 1) by lia. reflexivity.
    + rewrite alter_alter_eq. apply alter_ext. intros r _. reflexivity.
Qed.

End WorkerRun.

Section ChildFailure.
Context (E : environment).

(** C7, as stated, fails on the recording: after a run in which the venue
    rejected the child at index 2, the registry of runs is the very one a run
    without any rejection leaves, so nothing that reads it can tell that
    child 2, and child 2 alone, was rejected. *)
Lemma rejection_not_recorded :
  ~ (exists rejected : gmap string TWAP.strategy -> nat -> bool,
       forall (E' : environment) (a : TWAP.worker_args) (s : TWAP.state) (j : nat),
         (j < Z.to_nat (TWAP.w_chunks a))%nat ->
         rejected (TWAP.running_strategies
                     (snd (TWAP.execute_twap_background E' a s))) j = true
         <-> (forall oid, venue E' (length (TWAP.sent s) + j) (TWAP.chunk_order a)
                          <> Acked oid)).
Proof.
  intros [rejected Hrec].
  assert (Hsame :
    TWAP.running_strategies
      (snd (TWAP.execute_twap_background rejecting_env example_worker running_state))
    = TWAP.running_strategies
        (snd (TWAP.execute_twap_background example_env example_worker running_state)))
    by (vm_compute; reflexivity).
  pose proof (Hrec rejecting_env example_worker running_state 2%nat
                ltac:(vm_compute; lia)) as [_ Hrej].
  pose proof (Hrec example_env example_worker running_state 2%nat
                ltac:(vm_compute; lia)) as [Hacc _].
  rewrite Hsame in Hrej.
  assert (Hflag : rejected
            (TWAP.running_strategies
               (snd (TWAP.execute_twap_background example_env example_worker
                       running_state))) 2%nat = true).
  { apply Hrej. intros oid. vm_compute. discriminate. }
  apply (Hacc Hflag 1002). vm_compute. reflexivity.
Qed.

(** C7, amended. A failure of one child order does not abort a TWAP run:
    whatever the venue answers to each order (acceptance, rejection or a
    transport error), the background thread posts one market order per chunk,
    the run stays RUNNING during the loop and becomes COMPLETED after it.  The
    failure is logged and nothing else: [chunks_completed] counts the failed
    child like the others, and the registry the thread leaves is given by the
    arguments and the clock alone, with no child marked as rejected. *)
Theorem twap_failure_does_not_abort (a : TWAP.worker_args) (s : TWAP.state)
    (r : TWAP.strategy) (k : nat) :
  TWAP.running_strategies s !! TWAP.w_strategy_id a = Some r ->
  TWAP.status r = TWAP.RUNNING ->
  TWAP.sleepable (TWAP.w_interval_seconds a) = true ->
  (k <= Z.to_nat (TWAP.w_chunks a))%nat ->
  let n := Z.to_nat (TWAP.w_chunks a) in
  let during :=
    TWAP.run_schedule E a (replicate k TWAP.WorkerStep) (TWAP.Looping 0, s) in
  let final := snd (TWAP.execute_twap_background E a s) in
  fst during = TWAP.Looping k
  /\ TWAP.sent (snd during) = TWAP.sent s ++ replicate k (TWAP.chunk_order a)
  /\ TWAP.status_of (TWAP.w_strategy_id a) (snd during) = Some TWAP.RUNNING
  /\ ((0 < k)%nat ->
      TWAP.completed_of (TWAP.w_strategy_id a) (snd during) = Some (Z.of_nat k))
  /\ TWAP.sent final = TWAP.sent s ++ replicate n (TWAP.chunk_order a)
  /\ TWAP.status_of (TWAP.w_strategy_id a) final = Some TWAP.COMPLETED
  /\ TWAP.running_strategies final
     = <[TWAP.w_strategy_id a :=
           TWAP.set_end_time (clock E (TWAP.reads s))
             (TWAP.set_status TWAP.COMPLETED
                (match n with
                 | O => r
                 | S _ => TWAP.set_chunks_completed (Z.of_nat n) r
                 end))]> (TWAP.running_strategies s).
Proof.
  intros Hr Hst Hsleep Hk n during final.
  assert (Hfinal : final
    = snd (TWAP.run_schedule E a (replicate (n + 1) TWAP.WorkerStep)
                             (TWAP.Looping 0, s))).
  { unfold final, n. rewrite worker_steps_refine. reflexivity. }
  destruct (worker_turns E a Hsleep k 0%nat s ltac:(lia)) as (logk & Hturns).
  destruct (worker_turns E a Hsleep n 0%nat s ltac:(unfold n; lia)) as (logn & Hall).
  subst during. rewrite Hturns. cbn [fst snd TWAP.sent Nat.add].
  split; [reflexivity|]. split; [reflexivity|].
  split.
  { unfold TWAP.status_of. cbn. destruct k.
    - rewrite Hr. cbn. rewrite Hst. reflexivity.
    - rewrite status_alter_keeps by reflexivity. rewrite Hr. cbn. rewrite Hst.
      reflexivity. }
  split.
  { intros Hpos. unfold TWAP.completed_of. cbn. destruct k; [lia|].
    rewrite lookup_alter_eq, Hr. reflexivity. }
  rewrite Hfinal, replicate_add, run_schedule_app, Hall.
  cbn [replicate TWAP.run_schedule foldl TWAP.step fst snd TWAP.worker_step Nat.add].
  rewrite bool_decide_eq_false_2 by (unfold n; lia).
  match goal with
  | |- context [TWAP.worker_finish E a ?st] =>
      destruct (worker_finish_run E a st) as (reads' & log' & Hfin); rewrite Hfin
  end.
  cbn [fst snd TWAP.sent TWAP.running_strategies TWAP.reads].
  split; [reflexivity|].
  assert (Hmap :
    alter (fun r0 => TWAP.set_end_time (clock E (TWAP.reads s))
                       (TWAP.set_status TWAP.COMPLETED r0))
          (TWAP.w_strategy_id a)
          (match n with
           | O => TWAP.running_strategies s
           | S _ => alter (TWAP.set_chunks_completed (Z.of_nat n))
                          (TWAP.w_strategy_id a) (TWAP.running_strategies s)
           end)
    = <[TWAP.w_strategy_id a :=
          TWAP.set_end_time (clock E (TWAP.reads s))
            (TWAP.set_status TWAP.COMPLETED
               (match n with
                | O => r
                | S _ => TWAP.set_chunks_completed (Z.of_nat n) r
                end))]> (TWAP.running_strategies s)).
  { clear Hfinal Hall Hfin. clearbody n. destruct n as [|n'].
    - rewrite (alter_present _ _ _ _ Hr). reflexivity.
    - rewrite alter_alter_eq, (alter_present _ _ _ _ Hr). reflexivity. }
  split.
  - unfold TWAP.status_of. cbn [TWAP.running_strategies].
    rewrite Hmap, lookup_insert_eq. reflexivity.
  - exact Hmap.
Qed.

End ChildFailure.

(** The scenario: the venue rejects child 2 of the four-chunk run; after
    three loop turns the run is RUNNING with three chunks counted, and the
    thread goes on to the fourth. *)
Lemma twap_failure_does_not_abort_witness :
  let a := example_worker in
  let s := running_state in
  TWAP.running_strategies s !! TWAP.w_strategy_id a = Some running_run
  /\ TWAP.status running_run = TWAP.RUNNING
  /\ TWAP.sleepable (TWAP.w_interval_seconds a) = true
  /\ (3 <= Z.to_nat (TWAP.w_chunks a))%nat
  /\ let n := Z.to_nat (TWAP.w_chunks a) in
     let during :=
       TWAP.run_schedule rejecting_env a (replicate 3 TWAP.WorkerStep)
                         (TWAP.Looping 0, s) in
     let final := snd (TWAP.execute_twap_background rejecting_env a s) in
     fst during = TWAP.Looping 3
     /\ TWAP.sent (snd during) = TWAP.sent s ++ replicate 3 (TWAP.chunk_order a)
     /\ TWAP.status_of (TWAP.w_strategy_id a) (snd during) = Some TWAP.RUNNING
     /\ ((0 < 3)%nat ->
         TWAP.completed_of (TWAP.w_strategy_id a) (snd during) = Some (Z.of_nat 3))
     /\ TWAP.sent final = TWAP.sent s ++ replicate n (TWAP.chunk_order a)
     /\ TWAP.status_of (TWAP.w_strategy_id a) final = Some TWAP.COMPLETED
     /\ TWAP.running_strategies final
        = <[TWAP.w_strategy_id a :=
              TWAP.set_end_time (clock rejecting_env (TWAP.reads s))
                (TWAP.set_status TWAP.COMPLETED
                   (match n with
                    | O => running_run
                    | S _ => TWAP.set_chunks_completed (Z.of_nat n) running_run
                    end))]> (TWAP.running_strategies s).
Proof.
  intros a s.
  assert (Hr : TWAP.running_strategies s !! TWAP.w_strategy_id a = Some running_run)
    by (vm_compute; reflexivity).
  assert (Hsleep : TWAP.sleepable (TWAP.w_interval_seconds a) = true)
    by (vm_compute; reflexivity).
  assert (Hk : (3 <= Z.to_nat (TWAP.w_chunks a))%nat) by (vm_compute; lia).
  split; [exact Hr|]. split; [reflexivity|]. split; [exact Hsleep|].
  split; [exact Hk|].
  exact (twap_failure_does_not_abort rejecting_env a s running_run 3
           Hr eq_refl Hsleep Hk).
Defined.

(** ** Starting a TWAP run: [execute] *)

Lemma truediv_int_run {W} (x : float) (n : Z) (w : W) :
  truediv_int x n w
  = if is_infinity (float_of_Z n)
    then (inl (OverflowError "int too large to convert to float"), w)
    else if PrimFloat.eqb (float_of_Z n) 0 then (inl ZeroDivisionError, w)
    else (inr (x / float_of_Z n)%float, w).
Proof.
  unfold truediv_int, int_as_float. py_unfold.
  destruct (is_infinity (float_of_Z n)); [reflexivity|].
  destruct (PrimFloat.eqb (float_of_Z n) 0); reflexivity.
Qed.

(** The planned time is computed from the clock reading and the interval
    alone; the strategy object is not involved. *)
Lemma time_after_pure {W} (now : Z) (interval_seconds : float) (i : Z) (w : W) :
  time_after now interval_seconds i w = (planned_time now interval_seconds i, w).
Proof.
  unfold planned_time, time_after, mul_int, int_as_float, timedelta_seconds,
         datetime_add.
  py_unfold.
  destruct (is_infinity (float_of_Z i)); [reflexivity|].
  destruct (float_scaled_to_Z us_per_second _) as [us|].
  - destruct (Z.abs (us / us_per_day) <=? timedelta_max_days); [|reflexivity].
    destruct ((0 <=? now + us) && (now + us <? datetime_end)); reflexivity.
  - destruct (is_nan _); reflexivity.
Qed.

Section Execute.
Context (E : environment).

Lemma advance_clock_add (j k : nat) (s : TWAP.state) :
  TWAP.advance_clock k (TWAP.advance_clock j s) = TWAP.advance_clock (j + k) s.
Proof. unfold TWAP.advance_clock. cbn. rewrite Nat.add_assoc. reflexivity. Qed.

Lemma plan_entry_at_run (chunk_qty interval_seconds : float) (i : Z) (s : TWAP.state) :
  TWAP.plan_entry_at E chunk_qty interval_seconds i s
  = (match planned_time (clock E (TWAP.reads s)) interval_seconds i with
     | inr t => inr (TWAP.PlanEntry (i + 1) chunk_qty (strftime_seconds t) "PENDING")
     | inl e => inl e
     end,
     TWAP.advance_clock 1 s).
Proof.
  unfold TWAP.plan_entry_at, TWAP.datetime_now, TWAP.read_clock. py_unfold.
  rewrite (lookup_global_bound _ _ _ twap_datetime_bound).
  rewrite (lookup_global_bound _ _ _ twap_timedelta_bound).
  rewrite time_after_pure. unfold TWAP.advance_clock.
  rewrite Nat.add_1_r.
  destruct (planned_time (clock E (TWAP.reads s)) interval_seconds i); reflexivity.
Qed.

(** The loop that fills [execution_plan] reads the clock once per entry and
    changes nothing else; it raises exactly when a planned time cannot be
    represented. *)
Lemma build_plan_spec (chunk_qty interval_seconds : float) (idx : list Z) :
  forall s : TWAP.state,
    exists k,
      snd (TWAP.build_plan E chunk_qty interval_seconds idx s) = TWAP.advance_clock k s
      /\ match fst (TWAP.build_plan E chunk_qty interval_seconds idx s) with
         | inr plan =>
             k = length idx
             /\ length plan = length idx
             /\ forall j i, idx !! j = Some i ->
                  exists t,
                    planned_time (clock E (TWAP.reads s + j)) interval_seconds i = inr t
                    /\ plan !! j = Some (TWAP.PlanEntry (i + 1) chunk_qty
                                           (strftime_seconds t) "PENDING")
         | inl e =>
             exists j i, idx !! j = Some i
               /\ planned_time (clock E (TWAP.reads s + j)) interval_seconds i = inl e
         end.
Proof.
  induction idx as [|i idx IH]; intros s.
  - exists 0%nat. split.
    + unfold TWAP.advance_clock. cbn. rewrite Nat.add_0_r. destruct s; reflexivity.
    + cbn. split; [reflexivity|]. split; [reflexivity|]. intros j i' Hj. discriminate Hj.
  - cbn [TWAP.build_plan]. py_unfold. rewrite plan_entry_at_run.
    destruct (planned_time (clock E (TWAP.reads s)) interval_seconds i) as [e|t] eqn:Ht.
    + exists 1%nat. split; [reflexivity|]. cbn.
      exists 0%nat, i. rewrite Nat.add_0_r. split; [reflexivity|exact Ht].
    + destruct (IH (TWAP.advance_clock 1 s)) as (k & Hstate & Hres).
      destruct (TWAP.build_plan E chunk_qty interval_seconds idx (TWAP.advance_clock 1 s))
        as [[e|plan] s'] eqn:Hrest; cbn [fst snd] in *; subst s'.
      * exists (1 + k)%nat. split; [apply advance_clock_add|].
        destruct Hres as (j & i' & Hj & Hp). exists (S j), i'.
        split; [exact Hj|].
        replace (TWAP.reads s + S j)%nat with (TWAP.reads s + 1 + j)%nat by lia.
        exact Hp.
      * destruct Hres as (-> & Hlen & Hentries).
        exists (1 + length idx)%nat. split; [apply advance_clock_add|].
        split; [reflexivity|]. split; [cbn; rewrite Hlen; reflexivity|].
        intros [|j] i' Hj.
        -- injection Hj as <-. exists t. rewrite Nat.add_0_r. split; [exact Ht|reflexivity].
        -- destruct (Hentries j i' Hj) as (t' & Hp & Hplan). exists t'.
           split; [|exact Hplan].
           replace (TWAP.reads s + S j)%nat with (TWAP.reads s + 1 + j)%nat by lia.
           exact Hp.
Qed.

(** [execute] in closed form: the two divisions, the plan, then the id, the
    thread and the registration. *)
Lemma execute_run (sym sd : string) (total duration_hours : float) (chunks : Z)
    (s : TWAP.state) :
  TWAP.execute E sym sd total duration_hours chunks s
  = let d := float_of_Z chunks in
    if is_infinity d then
      (inr (TWAP.ExecuteError
              "Error starting TWAP strategy: int too large to convert to float"),
       TWAP.logged "ERROR" s)
    else if PrimFloat.eqb d 0 then
      (inr (TWAP.ExecuteError
              "Error starting TWAP strategy: float division by zero"),
       TWAP.logged "ERROR" s)
    else
      let chunk_qty := (total / d)%float in
      let interval_seconds := (duration_hours * 3600 / d)%float in
      match TWAP.build_plan E chunk_qty interval_seconds (py_range chunks)
                            (TWAP.logged "TWAP" s) with
      | (inl e, s1) =>
          (inr (TWAP.ExecuteError ("Error starting TWAP strategy: " +:+ exn_str e)),
           TWAP.logged "ERROR" s1)
      | (inr plan, s1) =>
          let strategy_id :=
            "twap_" +:+ sym +:+ "_"
            +:+ pretty (clock E (TWAP.reads s1) / us_per_second - unix_epoch_seconds) in
          (inr (TWAP.STARTED
                  (TWAP.StartedPlan strategy_id sym sd total chunk_qty chunks
                                    interval_seconds plan)),
           TWAP.State (S (S (TWAP.reads s1))) (TWAP.sent s1)
             (<[strategy_id :=
                  TWAP.Strategy sym sd total 0 (clock E (S (TWAP.reads s1)))
                                TWAP.RUNNING None None]>
                (TWAP.running_strategies s1))
             (TWAP.threads s1
                ++ [TWAP.WorkerArgs strategy_id sym sd chunk_qty chunks interval_seconds])
             (TWAP.log s1))
      end.
Proof.
  unfold TWAP.execute. py_unfold. rewrite truediv_int_run. cbv zeta.
  destruct (is_infinity (float_of_Z chunks)) eqn:Hinf; [reflexivity|].
  destruct (PrimFloat.eqb (float_of_Z chunks) 0) eqn:Hzero; [reflexivity|].
  rewrite truediv_int_run, Hinf, Hzero.
  change (TWAP.logger_log "TWAP" s) with (inr (B := unit) (A := py_exception) tt,
                                          TWAP.logged "TWAP" s).
  cbn iota.
  destruct (TWAP.build_plan E _ _ (py_range chunks) (TWAP.logged "TWAP" s))
    as [[e|plan] s1]; [reflexivity|].
  unfold TWAP.time_time_int, TWAP.thread_start, TWAP.datetime_now, TWAP.read_clock,
         TWAP.with_strategies.
  py_unfold.
  rewrite (lookup_global_bound _ _ _ twap_time_bound).
  rewrite (lookup_global_bound _ _ _ twap_threading_bound).
  rewrite (lookup_global_bound _ _ _ twap_datetime_bound).
  reflexivity.
Qed.



End Execute.

Section Validation.
Context (E : environment) (M : numpy_math).



End Validation.

(** ** The plan of a TWAP run *)

Section Plan.
Context (E : environment).



End Plan.

(** The scenario of the specification, on a clock that reads second
    63900000000: four children of 0.25, fifteen minutes apart, adding up to
    exactly 1.0. *)
Example twap_scenario_plan :
  let out := fst (TWAP.execute example_env "BTCUSDT" "BUY" 1 1 4 TWAP.initial) in
  plan_of out
  = [TWAP.PlanEntry 1 0.25 63900000000 "PENDING";
     TWAP.PlanEntry 2 0.25 (63900000000 + 15 * 60) "PENDING";
     TWAP.PlanEntry 3 0.25 (63900000000 + 30 * 60) "PENDING";
     TWAP.PlanEntry 4 0.25 (63900000000 + 45 * 60) "PENDING"]
  /\ py_sum (TWAP.quantity <$> plan_of out) = 1%float
  /\ sum_within_1e8 (TWAP.quantity <$> plan_of out) 1 = true.
Proof. vm_compute. repeat split. Qed.


(** ** The price ladder of a grid *)





Section Ladder.
Context (M : numpy_math).



End Ladder.

(** The scenario of the specification: five arithmetic lines from 48000 to
    52000 are stored as 48000, 49000, 50000, 51000, 52000. *)
Example grid_scenario_ladder :
  ladder (Grid.build_grid_levels
            (match fst (Grid.grid_prices arithmetic_only "Arithmetic" 48000 52000 5
                          Grid.initial) with
             | inr prices => prices
             | inl _ => []
             end) 0.5)
  = [48000; 49000; 50000; 51000; 52000]%float.
Proof. vm_compute. reflexivity. Qed.


(** ** Placing the orders of a grid *)

Section GridOrders.
Context (E : environment).

Lemma grid_time_sleep_raises (x : float) (s : Grid.state) :
  Grid.time_sleep x s = (inl (NameError "time"), s).
Proof.
  unfold Grid.time_sleep. py_unfold.
  rewrite (lookup_global_unbound _ _ _ grid_time_unbound). reflexivity.
Qed.

(** A loop turn of [_place_grid_orders] posts the order of its level and
    then raises at [time.sleep], whatever the venue answered; the state of the
    grid is not touched. *)
Lemma place_level_raises (grid_id sym : string) (k : nat) (s : Grid.state)
    (g : Grid.grid) (l : Grid.level) :
  Grid.active_grids s !! grid_id = Some g ->
  Grid.levels g !! k = Some l ->
  exists s',
    Grid.place_level E grid_id sym k s = (inl (NameError "time"), s')
    /\ Grid.sent s' = Grid.sent s ++ [Grid.level_order sym l]
    /\ Grid.grid_state <$> Grid.active_grids s' !! grid_id = Some (Grid.grid_state g).
Proof.
  intros Hg Hl. unfold Grid.place_level. py_unfold.
  rewrite Hg. cbn [mbind option_bind]. rewrite Hl.
  unfold Grid.limit_place_order, Grid.new_order, Grid.logger_log, Grid.update_level,
         Grid.update_grid, Grid.with_grids.
  py_unfold. cbn [Grid.sent Grid.active_grids].
  fold (Grid.level_order sym l).
  destruct (venue E (length (Grid.sent s)) (Grid.level_order sym l));
    cbn; rewrite grid_time_sleep_raises; eexists; (split; [reflexivity|]);
    cbn; (split; [reflexivity|]);
    rewrite ?lookup_alter_eq, Hg; reflexivity.
Qed.

(** So [_place_grid_orders] never gets past the first level of a grid: it
    posts that one order, and the [except] clause logs the [NameError]; the
    grid is not marked ACTIVE. *)
Lemma place_grid_orders_stops_after_first (grid_id : string) (s : Grid.state)
    (g : Grid.grid) (l : Grid.level) (rest : list Grid.level) :
  Grid.active_grids s !! grid_id = Some g ->
  Grid.levels g = l :: rest ->
  let s' := snd (Grid.place_grid_orders E grid_id s) in
  Grid.sent s' = Grid.sent s ++ [Grid.level_order (Grid.symbol g) l]
  /\ Grid.grid_state <$> Grid.active_grids s' !! grid_id = Some (Grid.grid_state g).
Proof.
  intros Hg Hlevels. unfold Grid.place_grid_orders. py_unfold. rewrite Hg, Hlevels.
  cbn [length seq for_each]. py_unfold.
  destruct (place_level_raises grid_id (Grid.symbol g) 0 s g l Hg
              ltac:(rewrite Hlevels; reflexivity)) as (s' & Hrun & Hsent & Hstate).
  rewrite Hrun. unfold Grid.logger_log. py_unfold. cbn. split; assumption.
Qed.

End GridOrders.

(** On a grid of three levels and a venue that accepts everything, one order
    goes out and the grid stays in SETUP. *)
Example place_grid_orders_example :
  let s' := snd (Grid.place_grid_orders example_env "grid_BTCUSDT_1" pending_grid_state) in
  length (Grid.sent s') = 1%nat
  /\ Grid.grid_state <$> Grid.active_grids s' !! "grid_BTCUSDT_1" = Some Grid.SETUP
  /\ (fun g => Grid.status <$> Grid.levels g)
       <$> Grid.active_grids s' !! "grid_BTCUSDT_1"
     = Some [Grid.PLACED; Grid.PENDING; Grid.PENDING].
Proof. vm_compute. repeat split. Qed.

(** * Further properties of the order modules *)

(** ** [OCOOrder.place_order] *)

Lemma oco_time_unbound : "time" ∉ OCO.module_globals.
Proof. apply (bool_decide_unpack _). vm_compute. exact I. Qed.

(** X1. [oco.py] never imports [time], so every call of
    [OCOOrder.place_order] raises [NameError] while it builds the client order
    ids: it returns the error dictionary and hands nothing to the client,
    whatever its arguments and whatever the venue would have answered. *)
Theorem oco_place_order_always_errors (E : environment)
    (answer : nat -> OCO.request -> OCO.response) (sym sd : string)
    (qty price stop_price : float)
    (stop_limit_price limit_iceberg_qty stop_iceberg_qty : option float)
    (s : OCO.state) :
  OCO.place_order E answer sym sd qty price stop_price stop_limit_price
                  limit_iceberg_qty stop_iceberg_qty s
  = (inr (OCO.OrderError "Error placing OCO order: name 'time' is not defined"),
     OCO.State (OCO.reads s) (OCO.sent s) (OCO.log s ++ ["OCO_ORDER"; "ERROR"])).
Proof.
  unfold OCO.place_order, OCO.time_time_ms, OCO.logger_log. py_unfold.
  rewrite (lookup_global_unbound _ _ _ oco_time_unbound). cbn.
  rewrite <- app_assoc. reflexivity.
Qed.

(** ** [MarketOrder.close_position] *)

Section ClosePosition.
Context (answer : nat -> Market.request -> venue_response).

Lemma market_place_order_run (sym sd : string) (qty : float) (reduce_only : bool)
    (s : Market.state) :
  let q := Market.Request (str_upper sym) (str_upper sd) (py_round qty 8) reduce_only in
  Market.place_order answer sym sd qty reduce_only s
  = (inr (Market.Answer (answer (length (Market.sent s)) q)),
     Market.State (Market.sent s ++ [q])
       (Market.log s ++ ["MARKET_ORDER";
                         match answer (length (Market.sent s)) q with
                         | Acked _ => "SUCCESS"
                         | _ => "ERROR"
                         end])).
Proof.
  cbv zeta. unfold Market.place_order, Market.new_order, Market.logger_log. py_unfold.
  cbn. destruct (answer (length (Market.sent s)) _); cbn; rewrite <- app_assoc;
    reflexivity.
Qed.

(** X2. [close_position] looks at the first position whose symbol is the one
    given.  Without one, or with an amount of zero, it answers 'No position
    to close' and sends nothing.  Otherwise it sends one reduce-only market
    order whose side is BUY when the amount is positive and SELL when it is
    not (the side of the position itself, since the code inverts the side
    twice), for the absolute amount, capped by the quantity when one is given;
    the [side] argument plays no part. *)
Theorem close_position_order (positions : list Market.position) (sym : string)
    (sd : option string) (qty : option float) (s : Market.state) :
  match List.find (fun p => String.eqb (Market.pos_symbol p) sym) positions with
  | None =>
      Market.close_position answer positions sym sd qty s
      = (inr (Market.OrderError "No position to close"), s)
  | Some p =>
      if PrimFloat.eqb (Market.pos_amount p) 0 then
        Market.close_position answer positions sym sd qty s
        = (inr (Market.OrderError "No position to close"), s)
      else
        let q :=
          Market.Request (str_upper sym)
            (if PrimFloat.ltb 0 (Market.pos_amount p) then "BUY" else "SELL")
            (py_round (match qty with
                       | None => abs (Market.pos_amount p)
                       | Some v => if PrimFloat.ltb v (abs (Market.pos_amount p))
                                   then v else abs (Market.pos_amount p)
                       end) 8)
            true in
        fst (Market.close_position answer positions sym sd qty s)
        = inr (Market.Answer (answer (length (Market.sent s)) q))
        /\ Market.sent (snd (Market.close_position answer positions sym sd qty s))
           = Market.sent s ++ [q]
  end.
Proof.
  unfold Market.close_position. py_unfold.
  destruct (List.find _ positions) as [p|]; [|reflexivity].
  destruct (PrimFloat.eqb (Market.pos_amount p) 0); [reflexivity|].
  cbv zeta. unfold py_min.
  change (Market.logger_log "CLOSE_POSITION" s)
    with (inr (A := py_exception) tt,
          Market.State (Market.sent s) (Market.log s ++ ["CLOSE_POSITION"])).
  destruct (PrimFloat.ltb 0 (Market.pos_amount p)).
  - change (String.eqb "SELL" "BUY") with false. cbv iota beta.
    rewrite !market_place_order_run. split; reflexivity.
  - change (String.eqb "BUY" "BUY") with true. cbv iota beta.
    rewrite !market_place_order_run. split; reflexivity.
Qed.

End ClosePosition.

(** ** The registry of TWAP runs *)

Section Registry.
Context (E : environment).

(** A successful [execute], in full: the id is built from the clock reading
    that follows the plan, the thread is started, and the run is registered
    with the next reading as its start. *)
Lemma execute_started (sym sd : string) (total duration_hours : float) (chunks : Z)
    (s : TWAP.state) (r : TWAP.started) :
  fst (TWAP.execute E sym sd total duration_hours chunks s) = inr (TWAP.STARTED r) ->
  let n := Z.to_nat chunks in
  let strategy_id :=
    "twap_" +:+ sym +:+ "_"
    +:+ pretty (clock E (TWAP.reads s + n) / us_per_second - unix_epoch_seconds) in
  TWAP.r_strategy_id r = strategy_id
  /\ snd (TWAP.execute E sym sd total duration_hours chunks s)
     = TWAP.State (S (S (TWAP.reads s + n))) (TWAP.sent s)
         (<[strategy_id :=
              TWAP.Strategy sym sd total 0 (clock E (S (TWAP.reads s + n)))
                            TWAP.RUNNING None None]> (TWAP.running_strategies s))
         (TWAP.threads s
            ++ [TWAP.WorkerArgs strategy_id sym sd (TWAP.r_chunk_quantity r) chunks
                                (TWAP.r_interval_seconds r)])
         (TWAP.log s ++ ["TWAP"])
  /\ length (TWAP.r_execution_plan r) = n.
Proof.
  rewrite execute_run. cbv zeta.
  destruct (is_infinity (float_of_Z chunks)); [discriminate|].
  destruct (PrimFloat.eqb (float_of_Z chunks) 0); [discriminate|].
  destruct (build_plan_spec E (total / float_of_Z chunks)
              (duration_hours * 3600 / float_of_Z chunks) (py_range chunks)
              (TWAP.logged "TWAP" s)) as (k & Hstate & Hplan).
  destruct (TWAP.build_plan E _ _ (py_range chunks) (TWAP.logged "TWAP" s))
    as [[e|plan] s1]; cbn [fst snd] in *; [discriminate|].
  destruct Hplan as (-> & Hlen & _). subst s1. rewrite length_py_range in *.
  intros [= <-]. split; [reflexivity|]. split; [reflexivity|exact Hlen].
Qed.

(** X3. After a successful [execute], [get_strategy_status] of the returned
    id shows the run as registered: RUNNING, no chunk completed, the total
    quantity as given, no end time and no error; every id that was unknown
    and differs from the new one is still unknown. *)
Theorem execute_then_status (sym sd : string) (total duration_hours : float)
    (chunks : Z) (s : TWAP.state) (r : TWAP.started) :
  fst (TWAP.execute E sym sd total duration_hours chunks s) = inr (TWAP.STARTED r) ->
  let s' := snd (TWAP.execute E sym sd total duration_hours chunks s) in
  (exists started_at,
     TWAP.get_strategy_status (TWAP.r_strategy_id r) s'
     = Some (TWAP.Strategy sym sd total 0 started_at TWAP.RUNNING None None))
  /\ forall other, other <> TWAP.r_strategy_id r ->
       TWAP.get_strategy_status other s' = TWAP.get_strategy_status other s.
Proof.
  intros Hstarted. destruct (execute_started _ _ _ _ _ _ _ Hstarted) as (Hid & Hstate & _).
  cbv zeta. rewrite Hstate, Hid. unfold TWAP.get_strategy_status. cbn. split.
  - eexists. apply lookup_insert_eq.
  - intros other Hother. apply lookup_insert_ne. congruence.
Qed.

(** X4. The id of a run is its symbol and the second at which it is
    started.  Two successful starts for the same symbol within one second get
    the same id: the second registration replaces the first, so one entry
    stands for both runs while both background threads run under that id. *)
Theorem same_second_same_id (sym sd1 sd2 : string)
    (total1 total2 duration1 duration2 : float) (chunks1 chunks2 : Z)
    (s : TWAP.state) (r1 r2 : TWAP.started) :
  let out1 := TWAP.execute E sym sd1 total1 duration1 chunks1 s in
  let out2 := TWAP.execute E sym sd2 total2 duration2 chunks2 (snd out1) in
  let k1 := (TWAP.reads s + Z.to_nat chunks1)%nat in
  let k2 := (S (S k1) + Z.to_nat chunks2)%nat in
  fst out1 = inr (TWAP.STARTED r1) ->
  fst out2 = inr (TWAP.STARTED r2) ->
  clock E k1 / us_per_second = clock E k2 / us_per_second ->
  TWAP.r_strategy_id r2 = TWAP.r_strategy_id r1
  /\ TWAP.running_strategies (snd out2)
     = <[TWAP.r_strategy_id r1 :=
           TWAP.Strategy sym sd2 total2 0 (clock E (S k2)) TWAP.RUNNING None None]>
         (TWAP.running_strategies s)
  /\ TWAP.w_strategy_id <$> TWAP.threads (snd out2)
     = (TWAP.w_strategy_id <$> TWAP.threads s)
       ++ [TWAP.r_strategy_id r1; TWAP.r_strategy_id r1].
Proof.
  cbv zeta. intros H1 H2 Hsecond.
  destruct (execute_started _ _ _ _ _ _ _ H1) as (Hid1 & Hstate1 & _).
  destruct (execute_started _ _ _ _ _ _ _ H2) as (Hid2 & Hstate2 & _).
  cbv zeta in Hid1, Hstate1, Hid2, Hstate2.
  rewrite Hstate2. clear Hstate2 H1 H2.
  rewrite Hstate1 in Hid2 |- *. clear Hstate1.
  cbn [TWAP.reads TWAP.sent TWAP.running_strategies TWAP.threads TWAP.log]
    in Hid2 |- *.
  rewrite <- Hsecond, <- Hid1 in Hid2.
  rewrite <- Hsecond, <- Hid1.
  split; [exact Hid2|]. split.
  - apply insert_insert_eq.
  - rewrite !fmap_app, <- app_assoc. reflexivity.
Qed.

End Registry.

Lemma execute_then_status_witness :
  exists r,
    fst (TWAP.execute example_env "BTCUSDT" "BUY" 1 1 4 TWAP.initial)
    = inr (TWAP.STARTED r)
    /\ let s' := snd (TWAP.execute example_env "BTCUSDT" "BUY" 1 1 4 TWAP.initial) in
       (exists started_at,
          TWAP.get_strategy_status (TWAP.r_strategy_id r) s'
          = Some (TWAP.Strategy "BTCUSDT" "BUY" 1 0 started_at TWAP.RUNNING None None))
       /\ forall other, other <> TWAP.r_strategy_id r ->
            TWAP.get_strategy_status other s'
            = TWAP.get_strategy_status other TWAP.initial.
Proof.
  assert (H : exists r,
            fst (TWAP.execute example_env "BTCUSDT" "BUY" 1 1 4 TWAP.initial)
            = inr (TWAP.STARTED r))
    by (vm_compute; eexists; reflexivity).
  destruct H as [r H]. exists r. split; [exact H|].
  exact (execute_then_status example_env "BTCUSDT" "BUY" 1 1 4 TWAP.initial r H).
Defined.

Lemma same_second_same_id_witness :
  let E := example_env in
  let s := TWAP.initial in
  let out1 := TWAP.execute E "BTCUSDT" "BUY" 1 1 4 s in
  let out2 := TWAP.execute E "BTCUSDT" "SELL" 2 1 2 (snd out1) in
  let k1 := (TWAP.reads s + Z.to_nat 4)%nat in
  let k2 := (S (S k1) + Z.to_nat 2)%nat in
  exists r1 r2,
    fst out1 = inr (TWAP.STARTED r1)
    /\ fst out2 = inr (TWAP.STARTED r2)
    /\ clock E k1 / us_per_second = clock E k2 / us_per_second
    /\ TWAP.r_strategy_id r2 = TWAP.r_strategy_id r1
    /\ TWAP.running_strategies (snd out2)
       = <[TWAP.r_strategy_id r1 :=
             TWAP.Strategy "BTCUSDT" "SELL" 2 0 (clock E (S k2)) TWAP.RUNNING None None]>
           (TWAP.running_strategies s)
    /\ TWAP.w_strategy_id <$> TWAP.threads (snd out2)
       = (TWAP.w_strategy_id <$> TWAP.threads s)
         ++ [TWAP.r_strategy_id r1; TWAP.r_strategy_id r1].
Proof.
  intros E s out1 out2 k1 k2.
  assert (H1 : exists r1, fst out1 = inr (TWAP.STARTED r1))
    by (vm_compute; eexists; reflexivity).
  assert (H2 : exists r2, fst out2 = inr (TWAP.STARTED r2))
    by (vm_compute; eexists; reflexivity).
  assert (Hsecond : clock E k1 / us_per_second = clock E k2 / us_per_second)
    by (vm_compute; reflexivity).
  destruct H1 as [r1 H1]. destruct H2 as [r2 H2]. exists r1, r2.
  split; [exact H1|]. split; [exact H2|]. split; [exact Hsecond|].
  exact (same_second_same_id E "BTCUSDT" "BUY" "SELL" 1 2 1 1 4 2 s r1 r2
           H1 H2 Hsecond).
Defined.

(** ** Edge cases of the background thread *)

Section WorkerEdges.
Context (E : environment).

Lemma worker_handler_run (a : TWAP.worker_args) (e : py_exception) (s : TWAP.state) :
  TWAP.worker_handler a e s
  = (inr tt,
     TWAP.State (TWAP.reads s) (TWAP.sent s)
       (alter (fun r => TWAP.set_error (exn_str e) (TWAP.set_status TWAP.ERROR r))
              (TWAP.w_strategy_id a) (TWAP.running_strategies s))
       (TWAP.threads s) (TWAP.log s ++ ["ERROR"])).
Proof.
  unfold TWAP.worker_handler, TWAP.update_strategy, TWAP.with_strategies,
         TWAP.logger_log.
  py_unfold. cbn. rewrite alter_alter_eq. reflexivity.
Qed.

Lemma worker_iteration_raises (a : TWAP.worker_args) (i : Z) (s : TWAP.state)
    (e : py_exception) :
  sleep_error (TWAP.w_interval_seconds a) = Some e ->
  TWAP.worker_iteration E a i s = (inl e, s).
Proof.
  intros He. unfold TWAP.worker_iteration, TWAP.time_sleep. py_unfold.
  rewrite (lookup_global_bound _ _ _ twap_time_bound), He. reflexivity.
Qed.

(** X5. When [time.sleep] refuses the interval (negative, not a number, or
    too large) and there is at least one chunk, the thread stops at its first
    statement: no order is posted, the error is logged, and the run, if it is
    registered, is marked ERROR with the exception's text. *)
Theorem worker_sleep_refused (a : TWAP.worker_args) (s : TWAP.state)
    (e : py_exception) :
  sleep_error (TWAP.w_interval_seconds a) = Some e ->
  0 < TWAP.w_chunks a ->
  TWAP.execute_twap_background E a s
  = (inr tt,
     TWAP.State (TWAP.reads s) (TWAP.sent s)
       (alter (fun r => TWAP.set_error (exn_str e) (TWAP.set_status TWAP.ERROR r))
              (TWAP.w_strategy_id a) (TWAP.running_strategies s))
       (TWAP.threads s) (TWAP.log s ++ ["ERROR"])).
Proof.
  intros He Hchunks. unfold TWAP.execute_twap_background, py_range.
  destruct (Z.to_nat (TWAP.w_chunks a)) as [|n] eqn:Hn; [lia|].
  cbn [seq fmap list_fmap for_each]. py_unfold.
  rewrite (worker_iteration_raises _ _ _ _ He). apply worker_handler_run.
Qed.

(** X7. The thread never creates an entry.  Run for an id that is not
    registered, it still posts every chunk's order, and leaves the registry
    as it found it. *)
Theorem worker_unregistered_still_trades (a : TWAP.worker_args) (s : TWAP.state) :
  TWAP.running_strategies s !! TWAP.w_strategy_id a = None ->
  TWAP.sleepable (TWAP.w_interval_seconds a) = true ->
  let final := snd (TWAP.execute_twap_background E a s) in
  TWAP.sent final
  = TWAP.sent s ++ replicate (Z.to_nat (TWAP.w_chunks a)) (TWAP.chunk_order a)
  /\ TWAP.running_strategies final = TWAP.running_strategies s.
Proof.
  intros Hnone Hsleep. cbv zeta.
  pose proof (worker_steps_refine E a s) as Hrefine.
  rewrite replicate_add, run_schedule_app in Hrefine.
  destruct (worker_turns E a Hsleep (Z.to_nat (TWAP.w_chunks a)) 0 s ltac:(lia))
    as (log' & Hturns).
  rewrite Hturns in Hrefine.
  cbn [replicate TWAP.run_schedule foldl TWAP.step fst snd TWAP.worker_step Nat.add]
    in Hrefine.
  rewrite bool_decide_eq_false_2 in Hrefine by lia.
  match type of Hrefine with
  | context [TWAP.worker_finish E a ?st] =>
      destruct (worker_finish_run E a st) as (reads' & log'' & Hfinish)
  end.
  rewrite Hfinish in Hrefine. injection Hrefine as <-.
  cbn [TWAP.sent TWAP.running_strategies]. split; [reflexivity|].
  rewrite alter_id'; [destruct (Z.to_nat (TWAP.w_chunks a)); [reflexivity|]|].
  - apply alter_id'. exact Hnone.
  - destruct (Z.to_nat (TWAP.w_chunks a)); [exact Hnone|].
    rewrite lookup_alter_eq, Hnone. reflexivity.
Qed.

End WorkerEdges.

Lemma worker_sleep_refused_witness :
  let a := TWAP.WorkerArgs "twap_BTCUSDT_1" "BTCUSDT" "BUY" 0.25 4 (-900) in
  let e := ValueError "sleep length must be non-negative" in
  sleep_error (TWAP.w_interval_seconds a) = Some e
  /\ 0 < TWAP.w_chunks a
  /\ TWAP.execute_twap_background example_env a running_state
     = (inr tt,
        TWAP.State (TWAP.reads running_state) (TWAP.sent running_state)
          (alter (fun r => TWAP.set_error (exn_str e) (TWAP.set_status TWAP.ERROR r))
                 (TWAP.w_strategy_id a) (TWAP.running_strategies running_state))
          (TWAP.threads running_state) (TWAP.log running_state ++ ["ERROR"])).
Proof.
  intros a e.
  assert (He : sleep_error (TWAP.w_interval_seconds a) = Some e)
    by (vm_compute; reflexivity).
  assert (Hchunks : 0 < TWAP.w_chunks a) by (vm_compute; reflexivity).
  split; [exact He|]. split; [exact Hchunks|].
  exact (worker_sleep_refused example_env a running_state e He Hchunks).
Defined.

Lemma worker_unregistered_still_trades_witness :
  let a := example_worker in
  let s := TWAP.initial in
  TWAP.running_strategies s !! TWAP.w_strategy_id a = None
  /\ TWAP.sleepable (TWAP.w_interval_seconds a) = true
  /\ let final := snd (TWAP.execute_twap_background example_env a s) in
     TWAP.sent final
     = TWAP.sent s ++ replicate (Z.to_nat (TWAP.w_chunks a)) (TWAP.chunk_order a)
     /\ TWAP.running_strategies final = TWAP.running_strategies s.
Proof.
  intros a s.
  assert (Hnone : TWAP.running_strategies s !! TWAP.w_strategy_id a = None)
    by (vm_compute; reflexivity).
  assert (Hsleep : TWAP.sleepable (TWAP.w_interval_seconds a) = true)
    by (vm_compute; reflexivity).
  split; [exact Hnone|]. split; [exact Hsleep|].
  exact (worker_unregistered_still_trades example_env a s Hnone Hsleep).
Defined.

Section RegistryFrame.
Context (E : environment).


(** X8. [cancel_strategy] answers True for a registered run whatever its
    status, and again when it is repeated: the second call changes nothing
    but the end time, which moves to the later clock reading. *)
Theorem cancel_twice (strategy_id : string) (s : TWAP.state) (r : TWAP.strategy) :
  TWAP.running_strategies s !! strategy_id = Some r ->
  let once := TWAP.cancel_strategy E strategy_id s in
  let twice := TWAP.cancel_strategy E strategy_id (snd once) in
  fst once = inr true
  /\ TWAP.running_strategies (snd once)
     = <[strategy_id := TWAP.set_end_time (clock E (TWAP.reads s))
                          (TWAP.set_status TWAP.CANCELLED r)]>
         (TWAP.running_strategies s)
  /\ fst twice = inr true
  /\ TWAP.running_strategies (snd twice)
     = <[strategy_id := TWAP.set_end_time (clock E (S (TWAP.reads s)))
                          (TWAP.set_status TWAP.CANCELLED r)]>
         (TWAP.running_strategies s)
  /\ TWAP.sent (snd twice) = TWAP.sent s.
Proof.
  intros Hr. cbv zeta. rewrite (cancel_strategy_run E strategy_id s), Hr.
  cbn [fst snd]. rewrite cancel_strategy_run.
  cbn [TWAP.running_strategies TWAP.reads TWAP.sent TWAP.threads TWAP.log].
  rewrite lookup_insert_eq. cbn [fst snd TWAP.running_strategies TWAP.sent].
  split; [reflexivity|]. split; [reflexivity|]. split; [reflexivity|].
  split; [|reflexivity]. rewrite insert_insert_eq. reflexivity.
Qed.

Lemma lookup_alter_frame {A B : Type} (proj : A -> B) (f : A -> A) (i j : string)
    (m : gmap string A) :
  (forall r, proj (f r) = proj r) ->
  proj <$> alter f i m !! j = proj <$> m !! j.
Proof.
  intros Hf. rewrite lookup_alter. destruct (decide (i = j)) as [->|]; [|reflexivity].
  destruct (m !! j); cbn; [rewrite Hf|]; reflexivity.
Qed.

(** One step of either thread rewrites entries in place. *)
Lemma step_frame {B : Type} (proj : TWAP.strategy -> B) (a : TWAP.worker_args)
    (act : TWAP.action) (sys : TWAP.worker_pc * TWAP.state) (id : string) :
  (forall n r, proj (TWAP.set_chunks_completed n r) = proj r) ->
  (forall st r, proj (TWAP.set_status st r) = proj r) ->
  (forall t r, proj (TWAP.set_end_time t r) = proj r) ->
  (forall msg r, proj (TWAP.set_error msg r) = proj r) ->
  proj <$> TWAP.running_strategies (snd (TWAP.step E a act sys)) !! id
  = proj <$> TWAP.running_strategies (snd sys) !! id.
Proof.
  intros Hchunks Hstatus Hend Herror. destruct sys as [pc s], act as [|cancelled].
  - cbn [TWAP.step fst snd]. destruct pc as [i|]; [|reflexivity].
    cbn [TWAP.worker_step].
    destruct (bool_decide (i < Z.to_nat (TWAP.w_chunks a))%nat).
    + destruct (sleep_error (TWAP.w_interval_seconds a)) as [e|] eqn:He.
      * rewrite (worker_iteration_raises E _ _ _ _ He), worker_handler_run.
        cbn [snd TWAP.running_strategies]. apply lookup_alter_frame.
        intros r. rewrite Herror, Hstatus. reflexivity.
      * rewrite worker_iteration_run by (unfold TWAP.sleepable; rewrite He; reflexivity).
        cbn [snd TWAP.running_strategies]. apply lookup_alter_frame, Hchunks.
    + destruct (worker_finish_run E a s) as (reads' & log' & ->).
      cbn [snd TWAP.running_strategies]. apply lookup_alter_frame.
      intros r. rewrite Hend, Hstatus. reflexivity.
  - cbn [TWAP.step fst snd].
    destruct (cancel_strategy_alter E cancelled s) as (reads' & log' & ->).
    cbn [snd TWAP.running_strategies]. apply lookup_alter_frame.
    intros r. rewrite Hend, Hstatus. reflexivity.
Qed.

(** X9. However the thread's turns and calls of [cancel_strategy] are
    interleaved, and whether or not [time.sleep] accepts the interval, no
    run is added to or removed from the registry, and no run's symbol,
    side, total quantity or start time changes. *)
Theorem schedule_keeps_registry (a : TWAP.worker_args) (acts : list TWAP.action)
    (sys : TWAP.worker_pc * TWAP.state) (id : string) :
  let before := TWAP.running_strategies (snd sys) !! id in
  let after := TWAP.running_strategies (snd (TWAP.run_schedule E a acts sys)) !! id in
  (is_Some after <-> is_Some before)
  /\ TWAP.symbol <$> after = TWAP.symbol <$> before
  /\ TWAP.side <$> after = TWAP.side <$> before
  /\ TWAP.total_quantity <$> after = TWAP.total_quantity <$> before
  /\ TWAP.start_time <$> after = TWAP.start_time <$> before.
Proof.
  cbv zeta. revert sys. induction acts as [|act acts IH]; intros sys.
  - cbn. repeat split; auto.
  - change (TWAP.run_schedule E a (act :: acts) sys)
      with (TWAP.run_schedule E a acts (TWAP.step E a act sys)).
    destruct (IH (TWAP.step E a act sys)) as (Hkey & Hsym & Hside & Htotal & Hstart).
    rewrite Hsym, Hside, Htotal, Hstart.
    rewrite !(step_frame _ a act sys id) by reflexivity.
    repeat split; try reflexivity.
    + intros H. apply Hkey in H. apply (fmap_is_Some TWAP.symbol) in H.
      rewrite (step_frame _ a act sys id) in H by reflexivity.
      apply fmap_is_Some in H. exact H.
    + intros H. apply Hkey. apply (fmap_is_Some TWAP.symbol).
      rewrite (step_frame _ a act sys id) by reflexivity.
      apply fmap_is_Some. exact H.
Qed.

End RegistryFrame.


Lemma cancel_twice_witness :
  let E := example_env in
  let s := running_state in
  let strategy_id := "twap_BTCUSDT_1" in
  TWAP.running_strategies s !! strategy_id = Some running_run
  /\ let once := TWAP.cancel_strategy E strategy_id s in
     let twice := TWAP.cancel_strategy E strategy_id (snd once) in
     fst once = inr true
     /\ TWAP.running_strategies (snd once)
        = <[strategy_id := TWAP.set_end_time (clock E (TWAP.reads s))
                             (TWAP.set_status TWAP.CANCELLED running_run)]>
            (TWAP.running_strategies s)
     /\ fst twice = inr true
     /\ TWAP.running_strategies (snd twice)
        = <[strategy_id := TWAP.set_end_time (clock E (S (TWAP.reads s)))
                             (TWAP.set_status TWAP.CANCELLED running_run)]>
            (TWAP.running_strategies s)
     /\ TWAP.sent (snd twice) = TWAP.sent s.
Proof.
  intros E s strategy_id.
  assert (Hr : TWAP.running_strategies s !! strategy_id = Some running_run)
    by (vm_compute; reflexivity).
  split; [exact Hr|].
  exact (cancel_twice E strategy_id s running_run Hr).
Defined.

(** ** The grid: placing, monitoring and closing *)

Section GridBook.
Context (E : environment) (cancel_acked : Z -> bool).

Lemma monitor_levels_snd (ids : list Z) (ls : list Grid.level) (n : Z) :
  snd (Grid.monitor_levels ids ls n)
  = n + Z.of_nat (length (List.filter (counts_as_filled ids) ls)).
Proof.
  revert n. induction ls as [|l ls IH]; intros n; [cbn; lia|].
  cbn [Grid.monitor_levels List.filter]. unfold counts_as_filled at 1.
  destruct (Grid.order_id l) as [oid|].
  - destruct (bool_decide (oid ∈ ids)); cbn [negb].
    + specialize (IH n). destruct (Grid.monitor_levels ids ls n). exact IH.
    + specialize (IH (n + 1)). destruct (Grid.monitor_levels ids ls (n + 1)).
      cbn [snd length] in *. lia.
  - specialize (IH n). destruct (Grid.monitor_levels ids ls n). exact IH.
Qed.

(** X11. On a known grid and a well-formed answer, [monitor_grid] counts
    afresh at every call: the filled count it reports and stores is the number
    of levels that have an order id missing from the answer, whatever was
    stored before; the report repeats the levels it stored, the grid's state
    and its placed count. *)
Theorem monitor_grid_counts_filled (opens : list Grid.open_order)
    (grid_id : string) (s : Grid.state) (g : Grid.grid) (ids : list Z) :
  Grid.active_grids s !! grid_id = Some g ->
  mapM Grid.oo_orderId opens = Some ids ->
  let filled := Z.of_nat (length (List.filter (counts_as_filled ids) (Grid.levels g))) in
  let out := Grid.monitor_grid opens grid_id s in
  exists r g',
    fst out = inr (Grid.MonitorOk r)
    /\ Grid.active_grids (snd out) !! grid_id = Some g'
    /\ Grid.m_orders_filled r = filled
    /\ Grid.orders_filled g' = filled
    /\ Grid.m_levels r = Grid.levels g'
    /\ Grid.m_status r = Grid.grid_state g
    /\ Grid.m_orders_placed r = Grid.orders_placed g
    /\ (Grid.orders_placed g <= 0 -> Grid.m_completion r = None).
Proof.
  intros Hg Hids. cbv zeta. rewrite monitor_grid_run, Hg, Hids. cbv zeta.
  eexists _, _. cbn [fst snd Grid.active_grids Grid.with_grids].
  rewrite lookup_insert_eq. split; [reflexivity|]. split; [reflexivity|].
  cbn [Grid.m_orders_filled Grid.m_levels Grid.m_status Grid.m_orders_placed
       Grid.m_completion].
  unfold reconciled. cbn [Grid.orders_filled Grid.set_orders_filled Grid.levels
                          Grid.with_levels].
  rewrite monitor_levels_snd, Z.add_0_l.
  repeat split. intros Hplaced.
  destruct (0 <? Grid.orders_placed g) eqn:Hlt; [|reflexivity].
  apply Z.ltb_lt in Hlt. lia.
Qed.

(** X12. When the request for the open orders fails, [get_open_orders]
    answers the empty list, and [monitor_grid] takes it for an empty book:
    every level that has an order id is marked FILLED and counted, although
    nothing is known about the orders. *)
Theorem monitor_grid_request_failed (e : py_exception) (grid_id : string)
    (s : Grid.state) (g : Grid.grid) :
  Grid.active_grids s !! grid_id = Some g ->
  let out := Grid.monitor_grid (get_open_orders (inl e)) grid_id s in
  exists r,
    fst out = inr (Grid.MonitorOk r)
    /\ Grid.m_orders_filled r
       = Z.of_nat (length (List.filter (fun l => bool_decide (is_Some (Grid.order_id l)))
                                       (Grid.levels g)))
    /\ Grid.levels <$> Grid.active_grids (snd out) !! grid_id = Some (Grid.m_levels r)
    /\ forall k l, Grid.levels g !! k = Some l ->
         Grid.m_levels r !! k
         = Some (if bool_decide (is_Some (Grid.order_id l))
                 then Grid.set_level_status Grid.FILLED l else l).
Proof.
  intros Hg. cbv zeta. cbn [get_open_orders]. rewrite monitor_grid_run, Hg.
  change (mapM Grid.oo_orderId []) with (Some (@nil Z)). cbv iota zeta.
  eexists. cbn [fst snd Grid.active_grids Grid.with_grids].
  split; [reflexivity|].
  cbn [Grid.m_orders_filled Grid.m_levels]. rewrite lookup_insert_eq.
  rewrite monitor_levels_snd, Z.add_0_l. split; [|split; [reflexivity|]].
  - f_equal. f_equal. apply filter_ext. intros l. unfold counts_as_filled.
    destruct (Grid.order_id l) as [oid|].
    + rewrite bool_decide_eq_false_2 by (apply not_elem_of_nil).
      rewrite bool_decide_eq_true_2 by (eexists; reflexivity). reflexivity.
    + rewrite bool_decide_eq_false_2 by (intros [x Hx]; discriminate Hx). reflexivity.
  - intros k l Hk. rewrite list_lookup_fmap, Hk. cbn [fmap option_fmap option_map].
    f_equal. unfold Grid.monitor_level. destruct (Grid.order_id l) as [oid|].
    + rewrite bool_decide_eq_false_2 by (apply not_elem_of_nil).
      rewrite bool_decide_eq_true_2 by (eexists; reflexivity). reflexivity.
    + rewrite bool_decide_eq_false_2 by (intros [x Hx]; discriminate Hx). reflexivity.
Qed.

Lemma cancel_open_orders_count (opens : list Grid.open_order) (cancelled : Z)
    (s : Grid.state) :
  Grid.cancel_open_orders cancel_acked opens cancelled s
  = (inr (cancelled
          + Z.of_nat (length (List.filter cancel_acked
                                          (omap Grid.oo_orderId opens)))),
     Grid.State (Grid.reads s) (Grid.sent s)
       (Grid.cancels s ++ omap Grid.oo_orderId opens)
       (Grid.active_grids s) (Grid.threads s) (Grid.log s)).
Proof.
  revert cancelled s. induction opens as [|o opens IH]; intros cancelled s.
  - cbn. rewrite app_nil_r, Z.add_0_r. destruct s; reflexivity.
  - cbn [Grid.cancel_open_orders omap list_omap].
    destruct (Grid.oo_orderId o) as [oid|]; [|apply IH].
    py_unfold. unfold Grid.cancel_order. rewrite IH.
    cbn [Grid.reads Grid.sent Grid.cancels Grid.active_grids Grid.threads Grid.log
         List.filter].
    rewrite <- app_assoc. destruct (cancel_acked oid); cbn [length app]; do 2 f_equal; lia.
Qed.

(** X13. [close_grid] on a known grid asks the venue to cancel every order of
    the answer that has an id, in the answer's order and whether or not the
    order belongs to the grid; an order without id is skipped silently.  The
    count it returns is the number of cancels the venue acknowledged, and
    the grid is marked CLOSED whatever that count is. *)
Theorem close_grid_cancels_every_open_order (opens : list Grid.open_order)
    (grid_id : string) (s : Grid.state) (g : Grid.grid) :
  Grid.active_grids s !! grid_id = Some g ->
  let ids := omap Grid.oo_orderId opens in
  Grid.close_grid cancel_acked opens grid_id s
  = (inr (Grid.CLOSED_OK grid_id (Z.of_nat (length (List.filter cancel_acked ids)))),
     Grid.State (Grid.reads s) (Grid.sent s) (Grid.cancels s ++ ids)
       (<[grid_id := Grid.set_grid_state Grid.CLOSED g]> (Grid.active_grids s))
       (Grid.threads s) (Grid.log s ++ ["GRID"])).
Proof.
  intros Hg. cbv zeta. unfold Grid.close_grid. py_unfold. rewrite Hg.
  rewrite cancel_open_orders_count, Z.add_0_l.
  unfold Grid.update_grid, Grid.logger_log. py_unfold. cbn.
  rewrite (alter_present _ _ _ _ Hg). reflexivity.
Qed.

(** X14. [monitor_grid] writes nothing but the status of levels and the
    filled count of the grid it is given: it posts and cancels nothing, leaves
    every other grid as it is, and of its own grid keeps the symbol, the
    bounds, the state and the placed count, and of every level the number,
    price, side, quantity, order id and error. *)
Theorem monitor_grid_frame (opens : list Grid.open_order) (grid_id : string)
    (s : Grid.state) :
  let s' := snd (Grid.monitor_grid opens grid_id s) in
  Grid.sent s' = Grid.sent s
  /\ Grid.cancels s' = Grid.cancels s
  /\ Grid.threads s' = Grid.threads s
  /\ (forall other, other <> grid_id ->
        Grid.active_grids s' !! other = Grid.active_grids s !! other)
  /\ grid_terms <$> Grid.active_grids s' !! grid_id
     = grid_terms <$> Grid.active_grids s !! grid_id
  /\ (fun g => level_terms <$> Grid.levels g) <$> Grid.active_grids s' !! grid_id
     = (fun g => level_terms <$> Grid.levels g) <$> Grid.active_grids s !! grid_id.
Proof.
  cbv zeta. rewrite monitor_grid_run.
  destruct (Grid.active_grids s !! grid_id) as [g|] eqn:Hg.
  - destruct (mapM Grid.oo_orderId opens) as [ids|].
    + cbn [snd Grid.with_grids Grid.sent Grid.cancels Grid.threads Grid.active_grids].
      rewrite lookup_insert_eq.
      split; [reflexivity|]. split; [reflexivity|]. split; [reflexivity|].
      split; [intros other Hother; apply lookup_insert_ne; congruence|].
      split; [reflexivity|].
      cbn [fmap option_fmap option_map]. f_equal.
      change (Grid.levels (reconciled ids g))
        with (Grid.monitor_level ids <$> Grid.levels g).
      rewrite <- list_fmap_compose. apply list_fmap_ext. intros i l _.
      unfold level_terms, Grid.monitor_level, compose.
      destruct (Grid.order_id l) eqn:Ho; [cbn; rewrite Ho|rewrite Ho]; reflexivity.
    + cbn [snd Grid.sent Grid.cancels Grid.threads Grid.active_grids]. rewrite Hg.
      repeat split.
  - cbn [snd]. rewrite Hg. repeat split.
Qed.

(** X10. [_place_grid_orders] on a registered grid posts the order of the
    first level only.  It records the venue's answer on that level (PLACED
    with the order id and the placed count raised by one, or FAILED with the
    venue's message, or FAILED with 'Unknown error'), then stops at
    [time.sleep], which the module never imported: the other levels stay as
    they were, the grid is not marked ACTIVE, and the failure is only logged. *)
Theorem place_grid_orders_first_level_only (grid_id : string) (s : Grid.state)
    (g : Grid.grid) (l : Grid.level) (rest : list Grid.level) :
  Grid.active_grids s !! grid_id = Some g ->
  Grid.levels g = l :: rest ->
  let q := Grid.level_order (Grid.symbol g) l in
  let out := Grid.place_grid_orders E grid_id s in
  fst out = inr tt
  /\ Grid.sent (snd out) = Grid.sent s ++ [q]
  /\ Grid.active_grids (snd out)
     = <[grid_id :=
           match venue E (length (Grid.sent s)) q with
           | Acked oid =>
               Grid.set_orders_placed (Grid.orders_placed g + 1)
                 (Grid.with_levels
                    (fun _ => Grid.set_level_order_id oid
                                (Grid.set_level_status Grid.PLACED l) :: rest) g)
           | Rejected msg =>
               Grid.with_levels
                 (fun _ => Grid.set_level_error msg
                             (Grid.set_level_status Grid.FAILED l) :: rest) g
           | TransportError _ =>
               Grid.with_levels
                 (fun _ => Grid.set_level_error "Unknown error"
                             (Grid.set_level_status Grid.FAILED l) :: rest) g
           end]> (Grid.active_grids s)
  /\ last (Grid.log (snd out)) = Some "ERROR".
Proof.
  intros Hg Hlevels. cbv zeta. unfold Grid.place_grid_orders. py_unfold.
  rewrite Hg, Hlevels. cbn [length seq for_each]. py_unfold.
  unfold Grid.place_level. py_unfold. rewrite Hg. cbn [mbind option_bind].
  rewrite Hlevels. cbn [lookup list_lookup].
  unfold Grid.limit_place_order, Grid.new_order, Grid.logger_log, Grid.update_level,
         Grid.update_grid, Grid.with_grids.
  py_unfold. cbn [Grid.sent Grid.active_grids].
  fold (Grid.level_order (Grid.symbol g) l).
  destruct (venue E (length (Grid.sent s)) (Grid.level_order (Grid.symbol g) l));
    cbn; rewrite grid_time_sleep_raises; cbn;
    (split; [reflexivity|]); (split; [reflexivity|]);
    (split; [|rewrite last_snoc; reflexivity]);
    rewrite ?alter_alter_eq, (alter_present _ _ _ _ Hg); f_equal;
    destruct g; cbn in Hlevels |- *; subst; reflexivity.
Qed.

End GridBook.

Lemma monitor_grid_counts_filled_witness :
  let opens := [Grid.OpenOrder (Some 9)] in
  let s := example_grid_state in
  let g := example_grid in
  let ids := [9] in
  Grid.active_grids s !! "grid_BTCUSDT_1" = Some g
  /\ mapM Grid.oo_orderId opens = Some ids
  /\ let filled :=
       Z.of_nat (length (List.filter (counts_as_filled ids) (Grid.levels g))) in
     let out := Grid.monitor_grid opens "grid_BTCUSDT_1" s in
     exists r g',
       fst out = inr (Grid.MonitorOk r)
       /\ Grid.active_grids (snd out) !! "grid_BTCUSDT_1" = Some g'
       /\ Grid.m_orders_filled r = filled
       /\ Grid.orders_filled g' = filled
       /\ Grid.m_levels r = Grid.levels g'
       /\ Grid.m_status r = Grid.grid_state g
       /\ Grid.m_orders_placed r = Grid.orders_placed g
       /\ (Grid.orders_placed g <= 0 -> Grid.m_completion r = None).
Proof.
  intros opens s g ids.
  assert (Hg : Grid.active_grids s !! "grid_BTCUSDT_1" = Some g)
    by (vm_compute; reflexivity).
  assert (Hids : mapM Grid.oo_orderId opens = Some ids) by reflexivity.
  split; [exact Hg|]. split; [exact Hids|].
  exact (monitor_grid_counts_filled opens "grid_BTCUSDT_1" s g ids Hg Hids).
Defined.

Lemma monitor_grid_request_failed_witness :
  let e := ValueError "Expecting value: line 1 column 1 (char 0)" in
  let s := example_grid_state in
  let g := example_grid in
  Grid.active_grids s !! "grid_BTCUSDT_1" = Some g
  /\ let out := Grid.monitor_grid (get_open_orders (inl e)) "grid_BTCUSDT_1" s in
     exists r,
       fst out = inr (Grid.MonitorOk r)
       /\ Grid.m_orders_filled r
          = Z.of_nat (length (List.filter
                                (fun l => bool_decide (is_Some (Grid.order_id l)))
                                (Grid.levels g)))
       /\ Grid.levels <$> Grid.active_grids (snd out) !! "grid_BTCUSDT_1"
          = Some (Grid.m_levels r)
       /\ forall k l, Grid.levels g !! k = Some l ->
            Grid.m_levels r !! k
            = Some (if bool_decide (is_Some (Grid.order_id l))
                    then Grid.set_level_status Grid.FILLED l else l).
Proof.
  intros e s g.
  assert (Hg : Grid.active_grids s !! "grid_BTCUSDT_1" = Some g)
    by (vm_compute; reflexivity).
  split; [exact Hg|].
  exact (monitor_grid_request_failed e "grid_BTCUSDT_1" s g Hg).
Defined.

Lemma close_grid_cancels_every_open_order_witness :
  let cancel_acked := Z.eqb 7 in
  let opens := [Grid.OpenOrder (Some 7); Grid.OpenOrder None; Grid.OpenOrder (Some 9)] in
  let s := example_grid_state in
  let g := example_grid in
  Grid.active_grids s !! "grid_BTCUSDT_1" = Some g
  /\ let ids := omap Grid.oo_orderId opens in
     Grid.close_grid cancel_acked opens "grid_BTCUSDT_1" s
     = (inr (Grid.CLOSED_OK "grid_BTCUSDT_1"
               (Z.of_nat (length (List.filter cancel_acked ids)))),
        Grid.State (Grid.reads s) (Grid.sent s) (Grid.cancels s ++ ids)
          (<["grid_BTCUSDT_1" := Grid.set_grid_state Grid.CLOSED g]>
             (Grid.active_grids s))
          (Grid.threads s) (Grid.log s ++ ["GRID"])).
Proof.
  intros cancel_acked opens s g.
  assert (Hg : Grid.active_grids s !! "grid_BTCUSDT_1" = Some g)
    by (vm_compute; reflexivity).
  split; [exact Hg|].
  exact (close_grid_cancels_every_open_order cancel_acked opens "grid_BTCUSDT_1" s g Hg).
Defined.

Lemma place_grid_orders_first_level_only_witness :
  let E := example_env in
  let s := pending_grid_state in
  let g := pending_grid in
  let l := Grid.Level 1 48000 BUY "BUY limit" 0.5 Grid.PENDING None None in
  let rest := [Grid.Level 2 50000 SELL "SELL limit" 0.5 Grid.PENDING None None;
               Grid.Level 3 52000 BUY "BUY limit" 0.5 Grid.PENDING None None] in
  Grid.active_grids s !! "grid_BTCUSDT_1" = Some g
  /\ Grid.levels g = l :: rest
  /\ let q := Grid.level_order (Grid.symbol g) l in
     let out := Grid.place_grid_orders E "grid_BTCUSDT_1" s in
     fst out = inr tt
     /\ Grid.sent (snd out) = Grid.sent s ++ [q]
     /\ Grid.active_grids (snd out)
        = <["grid_BTCUSDT_1" :=
              match venue E (length (Grid.sent s)) q with
              | Acked oid =>
                  Grid.set_orders_placed (Grid.orders_placed g + 1)
                    (Grid.with_levels
                       (fun _ => Grid.set_level_order_id oid
                                   (Grid.set_level_status Grid.PLACED l) :: rest) g)
              | Rejected msg =>
                  Grid.with_levels
                    (fun _ => Grid.set_level_error msg
                                (Grid.set_level_status Grid.FAILED l) :: rest) g
              | TransportError _ =>
                  Grid.with_levels
                    (fun _ => Grid.set_level_error "Unknown error"
                                (Grid.set_level_status Grid.FAILED l) :: rest) g
              end]> (Grid.active_grids s)
     /\ last (Grid.log (snd out)) = Some "ERROR".
Proof.
  intros E s g l rest.
  assert (Hg : Grid.active_grids s !! "grid_BTCUSDT_1" = Some g)
    by (vm_compute; reflexivity).
  assert (Hlevels : Grid.levels g = l :: rest) by (vm_compute; reflexivity).
  split; [exact Hg|]. split; [exact Hlevels|].
  exact (place_grid_orders_first_level_only E "grid_BTCUSDT_1" s g l rest Hg Hlevels).
Defined.

(** ** A run from start to end *)

Section WholeRun.
Context (E : environment).



End WholeRun.


Section GridActivation.
Context (E : environment).

(** X16. [_place_grid_orders] marks a grid ACTIVE only when it has no
    level at all: then no order is posted and the grid is activated with
    nothing placed.  With one level or more, one order is posted and the
    grid keeps the state it had.  For an unknown id nothing happens. *)
Theorem grid_activated_only_without_levels (grid_id : string) (s : Grid.state) :
  let s' := snd (Grid.place_grid_orders E grid_id s) in
  match Grid.active_grids s !! grid_id with
  | None => s' = s
  | Some g =>
      match Grid.levels g with
      | [] =>
          Grid.sent s' = Grid.sent s
          /\ Grid.active_grids s'
             = <[grid_id := Grid.set_grid_state Grid.ACTIVE g]> (Grid.active_grids s)
      | l :: _ =>
          Grid.sent s' = Grid.sent s ++ [Grid.level_order (Grid.symbol g) l]
          /\ Grid.grid_state <$> Grid.active_grids s' !! grid_id
             = Some (Grid.grid_state g)
      end
  end.
Proof.
  cbv zeta. destruct (Grid.active_grids s !! grid_id) as [g|] eqn:Hg.
  - destruct (Grid.levels g) as [|l rest] eqn:Hlevels.
    + unfold Grid.place_grid_orders. py_unfold. rewrite Hg, Hlevels.
      cbn [length seq for_each]. unfold Grid.update_grid, Grid.logger_log,
        Grid.with_grids.
      py_unfold. cbn. rewrite (alter_present _ _ _ _ Hg). split; reflexivity.
    + exact (place_grid_orders_stops_after_first E grid_id s g l rest Hg Hlevels).
  - unfold Grid.place_grid_orders. py_unfold. rewrite Hg. reflexivity.
Qed.

End GridActivation.
